(** * AutioEncoder: the signal pipeline of [encoder.py]

    A shallow embedding of the sample reader and writer ([dataFromWave],
    [dataToWave]), of the clamp [norm], and of the numeric parts of [encode]
    and [decode], together with the properties of the pipeline.

    The program runs under Python 3.  Python integers are [Z], numpy int64
    scalars are [Z] with a product that wraps; a string is either text
    ([str]) or [bytes], and the two do not mix; numpy float64 values are
    binary64 primitive floats and numpy's [int] is int64; exceptions are the
    [Err] branch of [result].  The [struct] and [wave] modules and the numpy
    calls are modelled as far as the program uses them, on a little-endian
    x86-64 host.  The trained Keras network is opaque and enters [encode]
    and [decode] as a parameter. *)

From Stdlib Require Import ZArith List Bool Lia Floats.
From Stdlib Require Import Strings.Byte.
From Stdlib Require String.
Import ListNotations.

Local Open Scope Z_scope.

(** ** Exceptions *)

Inductive error : Set :=
| KeyError
| StructError
| WaveError
| ZeroDivisionError
| ValueError
| IndexError
| TypeError.

Inductive result (A : Type) : Type :=
| Ok (a : A)
| Err (e : error).

Arguments Ok {A} a.
Arguments Err {A} e.

Definition bind {A B : Type} (m : result A) (k : A -> result B) : result B :=
  match m with
  | Ok a => k a
  | Err e => Err e
  end.

Notation "x <- m ;; k" := (bind m (fun x => k))
  (at level 61, m at next level, right associativity).

Definition is_ok {A : Type} (m : result A) : bool :=
  match m with
  | Ok _ => true
  | Err _ => false
  end.

(** ** Python integers and numpy int64 scalars *)

Definition int64_min : Z := -9223372036854775808.
Definition int64_max : Z := 9223372036854775807.

(** The int64 value with the same low 64 bits. *)
Definition wrap64 (z : Z) : Z :=
  (z + 9223372036854775808) mod 18446744073709551616 - 9223372036854775808.

(** The two kinds of integers the program computes with: the values
    [dataFromWave] returns are Python integers, the values [decode] takes
    out of the [params] array are numpy int64 scalars. *)
Inductive number : Set := PyInt | NpInt64.

(** [a * b]: exact on Python integers; on int64 scalars the product wraps
    (numpy warns and goes on). *)
Definition num_mul (k : number) (a b : Z) : Z :=
  match k with
  | PyInt => a * b
  | NpInt64 => wrap64 (a * b)
  end.

(** ** Python 3 strings *)

(** A [str] or a [bytes] value.  The only [str] values of the program are
    [''] and ['\0']; their characters are kept as bytes. *)
Inductive pystring : Set :=
| Text (s : list byte)
| Bytes (b : list byte).

(** [a + b]: both operands must be [str], or both [bytes]. *)
Definition py_add (a b : pystring) : result pystring :=
  match a, b with
  | Text x, Text y => Ok (Text (x ++ y))
  | Bytes x, Bytes y => Ok (Bytes (x ++ y))
  | _, _ => Err TypeError
  end.

(** ** The [struct] module: signed little-endian formats *)

Module Struct.

(** The format characters ['b'], ['h'], ['i'], ['q']. *)
Inductive format : Set := Fb | Fh | Fi | Fq.

Definition size (c : format) : nat :=
  match c with
  | Fb => 1
  | Fh => 2
  | Fi => 4
  | Fq => 8
  end%nat.

Definition bits (c : format) : Z := 8 * Z.of_nat (size c).

Definition byte_val (b : byte) : Z := Z.of_N (Byte.to_N b).

Definition byte_of_Z (z : Z) : byte :=
  match Byte.of_N (Z.to_N (z mod 256)) with
  | Some b => b
  | None => x00
  end.

(** Value of a little-endian byte string read as an unsigned number. *)
Fixpoint le_unsigned (bs : list byte) : Z :=
  match bs with
  | [] => 0
  | b :: t => byte_val b + 256 * le_unsigned t
  end.

(** Two's complement reading of a [w]-bit unsigned number. *)
Definition to_signed (w u : Z) : Z :=
  if u <? 2 ^ (w - 1) then u else u - 2 ^ w.

Definition unpack_one (c : format) (bs : list byte) : Z :=
  to_signed (bits c) (le_unsigned bs).

(** [count] consecutive pieces of [sz] elements. *)
Fixpoint chunk {A : Type} (sz count : nat) (l : list A) : list (list A) :=
  match count with
  | O => []
  | S k => firstn sz l :: chunk sz k (skipn sz l)
  end.

(** [struct.unpack('<{count}{c}', s)] on a buffer of bytes: the buffer
    must have exactly the size the format asks for. *)
Definition unpack_bytes (count : Z) (c : format) (s : list byte)
  : result (list Z) :=
  if Z.of_nat (length s) =? count * Z.of_nat (size c)
  then Ok (map (unpack_one c) (chunk (size c) (Z.to_nat count) s))
  else Err StructError.

(** [struct.unpack('<{count}{c}', s)]: a [str] is not a buffer. *)
Definition unpack (count : Z) (c : format) (s : pystring) : result (list Z) :=
  match s with
  | Bytes b => unpack_bytes count c b
  | Text _ => Err TypeError
  end.

Fixpoint le_bytes (n : nat) (u : Z) : list byte :=
  match n with
  | O => []
  | S k => byte_of_Z u :: le_bytes k (u / 256)
  end.

Definition representable (c : format) (v : Z) : bool :=
  (- 2 ^ (bits c - 1) <=? v) && (v <? 2 ^ (bits c - 1)).

(** The bytes of a representable value: its two's complement, low byte
    first. *)
Definition packed (c : format) (v : Z) : list byte :=
  le_bytes (size c) (v mod 2 ^ bits c).

(** [struct.pack('<{c}', v)]: out-of-range values raise [struct.error]. *)
Definition pack (c : format) (v : Z) : result (list byte) :=
  if representable c v then Ok (packed c v) else Err StructError.

End Struct.

(** ** The [wave] module *)

(** The RIFF header keeps the channel count, the block size and the bits
    per sample in 16-bit fields, and the frame rate, the byte rate and the
    chunk sizes in 32-bit fields; [struct.pack] refuses what does not fit.
    The arguments are those the setters of the writer have accepted, so
    they are positive. *)
Definition header_fits (chans width rate datasize : Z) : bool :=
  (chans <=? 65535) && (chans * width <=? 65535) && (width * 8 <=? 65535)
  && (rate <=? 4294967295) && (chans * rate * width <=? 4294967295)
  && (36 + datasize <=? 4294967295).

Definition fits_unsigned (bits v : Z) : bool := (0 <=? v) && (v <? 2 ^ bits).

(** The same test on the fields as the writer computes them when the
    channel count and the sample width are numbers of kind [k] (the rate is
    stored as a Python integer). *)
Definition header_fits_as (k : number) (chans width rate datasize : Z) : bool :=
  fits_unsigned 32 (36 + datasize)
  && fits_unsigned 16 chans
  && fits_unsigned 32 rate
  && fits_unsigned 32 (num_mul k (num_mul k chans rate) width)
  && fits_unsigned 16 (num_mul k chans width)
  && fits_unsigned 16 (num_mul k width 8).

Module Wave.

(** What [wave.open] takes from a PCM file: the channel count, the sample
    width in bytes (the header's bits per sample, rounded up) and the frame
    rate of the format chunk, the size the data chunk declares, and the
    bytes of the data chunk that are in the file (fewer than declared when
    the file is cut short).  Other chunks are skipped by the reader and
    are not kept. *)
Record wav : Set := raw_wav {
  nchannels : N;
  sampwidth : N;
  framerate : N;
  chunksize : N;
  payload : list byte
}.

(** A file whose data chunk is whole. *)
Definition mk_wav (nchannels sampwidth framerate : N) (payload : list byte)
  : wav :=
  {| nchannels := nchannels; sampwidth := sampwidth; framerate := framerate;
     chunksize := N.of_nat (length payload); payload := payload |}.

(** A [Wave_read] object: the header, and the part of the data chunk that
    has not been read yet. *)
Record reader : Set := mk_reader {
  r_nchannels : Z;
  r_sampwidth : Z;
  r_framerate : Z;
  r_nframes : Z;
  r_framesize : Z;
  r_rest : list byte
}.

(** [wave.open(fname, 'rb')]: a format chunk with no sample width or no
    channel is refused; the frame count is the declared size of the data
    chunk divided by the frame size. *)
Definition open_read (f : wav) : result reader :=
  if (sampwidth f =? 0)%N then Err WaveError
  else if (nchannels f =? 0)%N then Err WaveError
  else
    let framesize := Z.of_N (nchannels f) * Z.of_N (sampwidth f) in
    Ok {| r_nchannels := Z.of_N (nchannels f);
          r_sampwidth := Z.of_N (sampwidth f);
          r_framerate := Z.of_N (framerate f);
          r_nframes := Z.of_N (chunksize f) / framesize;
          r_framesize := framesize;
          r_rest := firstn (N.to_nat (chunksize f)) (payload f) |}.

(** [readframes(n)]: at most [n] frames' worth of bytes, fewer at the end
    of the data. *)
Definition readframes (n : Z) (r : reader) : list byte * reader :=
  let k := Z.to_nat (n * r_framesize r) in
  (firstn k (r_rest r),
   {| r_nchannels := r_nchannels r;
      r_sampwidth := r_sampwidth r;
      r_framerate := r_framerate r;
      r_nframes := r_nframes r;
      r_framesize := r_framesize r;
      r_rest := skipn k (r_rest r) |}).

(** A [Wave_write] object: the header fields once set, and the byte strings
    handed to [writeframesraw], in order.  The header is on the file from
    the first [writeframesraw] on. *)
Record writer : Set := mk_writer {
  w_nchannels : option Z;
  w_sampwidth : option Z;
  w_framerate : option Z;
  w_written : list (list byte)
}.

Definition open_write : writer :=
  {| w_nchannels := None; w_sampwidth := None; w_framerate := None;
     w_written := [] |}.

Definition set_written (w : writer) (ws : list (list byte)) : writer :=
  {| w_nchannels := w_nchannels w; w_sampwidth := w_sampwidth w;
     w_framerate := w_framerate w; w_written := ws |}.

(** The three setters refuse a channel count below 1, a sample width
    outside 1..4 and a frame rate below 1. *)
Definition setnchannels (n : Z) (w : writer) : result writer :=
  if n <? 1 then Err WaveError
  else Ok {| w_nchannels := Some n; w_sampwidth := w_sampwidth w;
             w_framerate := w_framerate w; w_written := w_written w |}.

Definition setsampwidth (n : Z) (w : writer) : result writer :=
  if (n <? 1) || (4 <? n) then Err WaveError
  else Ok {| w_nchannels := w_nchannels w; w_sampwidth := Some n;
             w_framerate := w_framerate w; w_written := w_written w |}.

Definition setframerate (n : Z) (w : writer) : result writer :=
  if n <=? 0 then Err WaveError
  else Ok {| w_nchannels := w_nchannels w; w_sampwidth := w_sampwidth w;
             w_framerate := Some n; w_written := w_written w |}.

Definition header_written (w : writer) : bool :=
  match w_written w with
  | [] => false
  | _ :: _ => true
  end.

(** The data length the header is written with: the whole frames of the
    first byte string. *)
Definition initial_datalength (chans width initlength : Z) : Z :=
  initlength / (chans * width) * chans * width.

(** [_ensure_header_written(datasize)]: unless it is there already, the
    header is packed and written; this needs the three fields, and fails
    with [struct.error] when a value does not fit its field. *)
Definition ensure_header_written (datasize : Z) (w : writer) : result unit :=
  if header_written w then Ok tt
  else
    match w_nchannels w, w_sampwidth w, w_framerate w with
    | Some c, Some wd, Some r =>
        if header_fits c wd r (initial_datalength c wd datasize)
        then Ok tt else Err StructError
    | _, _, _ => Err WaveError
    end.

(** [writeframesraw(data)]: the header first, then the bytes. *)
Definition writeframesraw (data : list byte) (w : writer) : result writer :=
  _ <- ensure_header_written (Z.of_nat (length data)) w ;;
  Ok (set_written w (w_written w ++ [data])).

(** The data chunk of the file being written. *)
Definition w_data (w : writer) : list byte := concat (w_written w).

(** The data length in the header of a writer that has its header. *)
Definition datalength (w : writer) : Z :=
  match w_written w, w_nchannels w, w_sampwidth w with
  | first :: _, Some c, Some wd =>
      initial_datalength c wd (Z.of_nat (length first))
  | _, _, _ => 0
  end.

(** [close()]: the header is written if nothing was written before, and
    the two length fields are packed again when the data written is not of
    the length the header has.  The result is the file left behind. *)
Definition close (w : writer) : result wav :=
  _ <- ensure_header_written 0 w ;;
  let written := Z.of_nat (length (w_data w)) in
  if negb (datalength w =? written) && negb (36 + written <=? 4294967295)
  then Err StructError
  else
    match w_nchannels w, w_sampwidth w, w_framerate w with
    | Some c, Some wd, Some r =>
        Ok {| nchannels := Z.to_N c; sampwidth := Z.to_N wd;
              framerate := Z.to_N r; chunksize := Z.to_N written;
              payload := w_data w |}
    | _, _, _ => Err WaveError
    end.

End Wave.

(** ** Reading samples: [dataFromWave] *)

(** The dictionary [{1:'b',2:'h',3:'i',4:'i',8:'q'}]. *)
Definition width_format (sampwidth : Z) : result Struct.format :=
  if sampwidth =? 1 then Ok Struct.Fb
  else if sampwidth =? 2 then Ok Struct.Fh
  else if sampwidth =? 3 then Ok Struct.Fi
  else if sampwidth =? 4 then Ok Struct.Fi
  else if sampwidth =? 8 then Ok Struct.Fq
  else Err KeyError.

(** [l[a:b]] for non-negative [a], [b]. *)
Definition slice {A : Type} (l : list A) (a b : Z) : list A :=
  firstn (Z.to_nat b - Z.to_nat a) (skipn (Z.to_nat a) l).

(** [range(0, stop, 3)]. *)
Definition range3 (stop : Z) : list Z :=
  map (fun j => 3 * Z.of_nat j) (seq 0 (Z.to_nat ((stop + 2) / 3))).

(** The inner loop of the width-3 path, for one physical frame [fr] and
    the accumulator [s], over the values [cs] of [c]:
    [for c in range(0,3*chans,3): s += '\0'+fr[c:(c+3)]].
    The right-hand side is evaluated first. *)
Fixpoint widen_frame (cs : list Z) (fr : list byte) (s : pystring)
  : result pystring :=
  match cs with
  | [] => Ok s
  | c :: rest =>
      piece <- py_add (Text [x00]) (Bytes (slice fr c (c + 3))) ;;
      s <- py_add s piece ;;
      widen_frame rest fr s
  end.

(** The outer loop [for k in range(samps)], one [readframes(1)] per turn. *)
Fixpoint read_24 (k : nat) (chans : Z) (r : Wave.reader) (s : pystring)
  : result pystring :=
  match k with
  | O => Ok s
  | S k' =>
      let (fr, r1) := Wave.readframes 1 r in
      s <- widen_frame (range3 (3 * chans)) fr s ;;
      read_24 k' chans r1 s
  end.

Definition dataFromWave (fname : Wave.wav)
  : result (list Z * Z * Z * Z * Z) :=
  f <- Wave.open_read fname ;;
  let chans := Wave.r_nchannels f in
  let samps := Wave.r_nframes f in
  let sampwidth := Wave.r_sampwidth f in
  let rate := Wave.r_framerate f in
  s <- (if sampwidth =? 3
        then read_24 (Z.to_nat samps) chans f (Text [])
        else Ok (Bytes (fst (Wave.readframes samps f)))) ;;
  c <- width_format sampwidth ;;
  x <- Struct.unpack (samps * chans) c s ;;
  let x := if sampwidth =? 3 then map (fun k => Z.shiftr k 8) x else x in
  Ok (x, chans, samps, sampwidth, rate).

(** ** Writing samples: [dataToWave] *)

(** The loop [for i in range(samps*chans)] over the indices [idx]: it stops
    at the first exception ([data[i]] out of range, [struct.pack] refusing
    the value, or [writeframesraw] failing on the header) and leaves the
    writer as it was at that moment. *)
Fixpoint write_loop (c : Struct.format) (data : list Z) (idx : list nat)
  (obj : Wave.writer) : Wave.writer * option error :=
  match idx with
  | [] => (obj, None)
  | i :: rest =>
      match nth_error data i with
      | None => (obj, Some IndexError)
      | Some v =>
          match Struct.pack c v with
          | Err e => (obj, Some e)
          | Ok bs =>
              match Wave.writeframesraw bs obj with
              | Err e => (obj, Some e)
              | Ok obj => write_loop c data rest obj
              end
          end
      end
  end.

(** Lines 48-57, for arguments that are numbers of kind [k].  The result is
    the state of the writer object when the loop is left, and the exception
    it was left with, if any. *)
Definition dataToWave_as (k : number) (data : list Z)
  (chans samps sampwidth rate : Z) : Wave.writer * option error :=
  let obj := Wave.open_write in
  match Wave.setnchannels chans obj with
  | Err e => (obj, Some e)
  | Ok obj =>
  match Wave.setsampwidth sampwidth obj with
  | Err e => (obj, Some e)
  | Ok obj =>
  match Wave.setframerate rate obj with
  | Err e => (obj, Some e)
  | Ok obj =>
  match width_format sampwidth with
  | Err e => (obj, Some e)
  | Ok packstr =>
      write_loop packstr data (seq 0 (Z.to_nat (num_mul k samps chans))) obj
  end end end end.

(** [dataToWave] called with Python integers, up to the end of its loop. *)
Definition dataToWave (data : list Z) (chans samps sampwidth rate : Z)
  : Wave.writer * option error :=
  dataToWave_as PyInt data chans samps sampwidth rate.

(** The last line, [obj.close()], after a loop left without exception: the
    file the function leaves at [fname]. *)
Definition finish (run : Wave.writer * option error) : result Wave.wav :=
  match run with
  | (w, None) => Wave.close w
  | (_, Some e) => Err e
  end.

(** [dataToWave] as a whole (lines 48-58), called with Python integers. *)
Definition dataToWave_file (data : list Z) (chans samps sampwidth rate : Z)
  : result Wave.wav :=
  finish (dataToWave data chans samps sampwidth rate).

(** ** The clamp [norm] *)

Definition norm (x : Z) : Z :=
  if x <? -32768 then -32768
  else if 32767 <? x then 32767
  else x.

(** ** numpy conversions and array helpers *)

(** [astype(float)] on an element [z] of an int64 array: the machine
    conversion to the nearest binary64. *)
Definition astype_float (z : Z) : float :=
  if z =? int64_min then (- 0x1p63)%float
  else if z <? 0 then (- PrimFloat.of_uint63 (Uint63.of_Z (- z)))%float
  else PrimFloat.of_uint63 (Uint63.of_Z z).

(** Magnitude of a finite float [m * 2^e] with the fraction dropped. *)
Definition trunc_mag (m : positive) (e : Z) : Z :=
  if 0 <=? e then Z.pos m * 2 ^ e else Z.pos m / 2 ^ (- e).

(** [astype(int)] on an element of a float array: the C conversion to int64,
    which drops the fraction (rounds toward zero).  NaN, the infinities and
    values outside int64 give the x86-64 result [int64_min]. *)
Definition astype_int_SF (x : spec_float) : Z :=
  match x with
  | S754_zero _ => 0
  | S754_finite sg m e =>
      let a := trunc_mag m e in
      let v := if sg then - a else a in
      if (int64_min <=? v) && (v <=? int64_max) then v else int64_min
  | _ => int64_min
  end.

(** The element type of an array of floats.  The arrays [encode] builds are
    float64; the array [decoder.predict] returns is float32 under Keras'
    default [floatx] and float64 when [floatx] is set so.  numpy keeps the
    type of an array through operations with Python scalars.  The elements
    of a float32 array are carried as the binary64 values they equal. *)
Inductive dtype : Set := Float32 | Float64.

Definition dt_prec (d : dtype) : Z :=
  match d with
  | Float32 => 24
  | Float64 => 53
  end.

Definition dt_emax (d : dtype) : Z :=
  match d with
  | Float32 => 128
  | Float64 => 1024
  end.

(** A Python scalar with an integer value, in the array's type. *)
Definition scalar (d : dtype) (z : Z) : spec_float :=
  binary_normalize (dt_prec d) (dt_emax d) z 0 false.

(** [np.zeros((p_size,))], of the element type with zero [zero]. *)
Definition np_zeros {A : Type} (zero : A) (p_size : Z) : result (list A) :=
  if p_size <? 0 then Err ValueError
  else Ok (repeat zero (Z.to_nat p_size)).

(** [padded[0:n_in] = data]: the slice has [min n_in (len padded)] places and
    [data] must have as many elements, or be a single element to repeat. *)
Definition assign_prefix {A : Type} (padded : list A) (n_in : Z)
  (data : list A) : result (list A) :=
  let k := Nat.min (Z.to_nat n_in) (length padded) in
  if Nat.eqb (length data) k then Ok (data ++ skipn k padded)
  else match data with
       | [v] => Ok (repeat v k ++ skipn k padded)
       | _ => Err ValueError
       end.

(** [np.split(ary, sections)] with an integer number of sections. *)
Definition np_split {A : Type} (ary : list A) (sections : Z)
  : result (list (list A)) :=
  let n := Z.of_nat (length ary) in
  if sections =? 0 then Err ZeroDivisionError
  else if negb (n mod sections =? 0) then Err ValueError
  else if sections <? 0 then Err ValueError
  else Ok (Struct.chunk (Z.to_nat (n / sections)) (Z.to_nat sections) ary).

(** [np.concatenate] of the rows of a 2-D array. *)
Definition np_concatenate {A : Type} (rows : list (list A)) : result (list A) :=
  match rows with
  | [] => Err ValueError
  | _ => Ok (concat rows)
  end.

(** ** The numeric steps of [encode] and [decode] *)

(** Lines 88-90 of [encode], as three array operations. *)
Definition rescale (data : list Z) : list float :=
  let data := map (fun s => (astype_float s / 32768)%float) data in
  let data := map (fun x => (x + 1)%float) data in
  map (fun x => (x / 2)%float) data.

(** What [rescale] does to one sample. *)
Definition normalize (s : Z) : float :=
  (((astype_float s / 32768) + 1) / 2)%float.

(** Lines 93-99 of [encode]: pad with zeros of the array's element type and
    split into frames of [rate] elements. *)
Definition padAndSplit {A : Type} (zero : A) (data : list A) (rate : Z)
  : result (list (list A)) :=
  let n_in := Z.of_nat (length data) in
  if rate =? 0 then Err ZeroDivisionError
  else
    let p_size := n_in + (rate - n_in mod rate) in
    padded <- np_zeros zero p_size ;;
    padded <- assign_prefix padded n_in data ;;
    np_split padded (p_size / rate).

(** [((out * 2.0) - 1.0) * float(pow(2,15))] on one element, each operation
    rounding in the array's type. *)
Definition unscale_SF (d : dtype) (x : spec_float) : spec_float :=
  let mul := SFmul (dt_prec d) (dt_emax d) in
  let sub := SFsub (dt_prec d) (dt_emax d) in
  mul (sub (mul x (scalar d 2)) (scalar d 1)) (scalar d 32768).

(** The same, with the machine operations where the array is float64. *)
Definition unscale (d : dtype) (f : float) : spec_float :=
  match d with
  | Float64 => Prim2SF (((f * 2) - 1) * 32768)%float
  | Float32 => unscale_SF Float32 (Prim2SF f)
  end.

(** Line 158 of [decode] on one element. *)
Definition denormalize (d : dtype) (f : float) : Z :=
  astype_int_SF (unscale d f).

(** Lines 158-160 of [decode] on one element. *)
Definition decode_sample (d : dtype) (f : float) : Z := norm (denormalize d f).

(** ** [encode] and [decode] around the opaque network *)

Definition frames : Type := list (list float).

(** The two halves of the trained network, as [predict] functions. *)
Record autoencoder : Type := mk_autoencoder {
  encoder_predict : frames -> frames;
  decoder_predict : frames -> frames
}.

(** The content of the [.npz] file: the fields [data] and [params]; the
    latter is an int64 array. *)
Record npz : Type := mk_npz {
  npz_data : frames;
  npz_params : list Z
}.

Definition index {A : Type} (l : list A) (i : nat) : result A :=
  match nth_error l i with
  | Some v => Ok v
  | None => Err IndexError
  end.

(** The frames handed to the network (lines 86-102). *)
Definition encode_inputs (data : list Z) (samp_rate : Z) : result frames :=
  let rate := samp_rate / 100 in
  let data := rescale data in
  padAndSplit 0%float data rate.

Section Codec.

(** Building, compiling and fitting the network on the input frames, for
    the frame width [rate]. *)
Variable fit : Z -> frames -> autoencoder.

(** The pair of artifacts [encode] saves: the [.npz] content and the
    decoder model. *)
Definition encode (in_file : Wave.wav) : result (npz * (frames -> frames)) :=
  r <- dataFromWave in_file ;;
  let '(data, chans, samps, width, samp_rate) := r in
  inputs <- encode_inputs data samp_rate ;;
  let net := fit (samp_rate / 100) inputs in
  Ok ({| npz_data := encoder_predict net inputs;
         npz_params := [chans; samps; width; samp_rate] |},
      decoder_predict net).

End Codec.

(** The parameters [decode] reads back (lines 148-151). *)
Definition decode_params (ins : npz) : result (Z * Z * Z * Z) :=
  chans <- index (npz_params ins) 0 ;;
  samps <- index (npz_params ins) 1 ;;
  width <- index (npz_params ins) 2 ;;
  samp_rate <- index (npz_params ins) 3 ;;
  Ok (chans, samps, width, samp_rate).

(** Lines 153-160: the integer samples handed to [dataToWave]; [d] is the
    type of the array the decoder returns. *)
Definition decode_out (d : dtype) (ins : npz) (decoder : frames -> frames)
  : result (list Z) :=
  let outputs := decoder (npz_data ins) in
  out <- np_concatenate outputs ;;
  let out := map (denormalize d) out in
  Ok (map norm out).

(** [decode] up to the end of the loop of [dataToWave]; the parameters
    are int64 scalars. *)
Definition decode (d : dtype) (ins : npz) (decoder : frames -> frames)
  : result (Wave.writer * option error) :=
  p <- decode_params ins ;;
  let '(chans, samps, width, samp_rate) := p in
  out <- decode_out d ins decoder ;;
  Ok (dataToWave_as NpInt64 out chans samps width samp_rate).

(** [decode] as a whole: the file it leaves at [out_file + ".wav"]. *)
Definition decode_file (d : dtype) (ins : npz) (decoder : frames -> frames)
  : result Wave.wav :=
  run <- decode d ins decoder ;;
  finish run.

(** ** Reference readings used in the statements *)

(** The 24-bit two's complement value of three little-endian bytes. *)
Definition sext24 (t : list byte) : Z :=
  Struct.to_signed 24 (Struct.le_unsigned t).

(** The writer has its three header fields set to the given values. *)
Definition has_header (chans width rate : Z) (w : Wave.writer) : Prop :=
  Wave.w_nchannels w = Some chans /\
  Wave.w_sampwidth w = Some width /\
  Wave.w_framerate w = Some rate.

(** Membership in the closed interval from 0.0 to 1.0. *)
Definition in_unit (x : float) : bool := ((0 <=? x) && (x <=? 1))%float.

(** The 16-bit sample range the rescaling is written for. *)
Definition in_int16 (s : Z) : Prop := -32768 <= s <= 32767.

(** The encode front end in the order the specification lists its stages:
    pad the integer samples with the integer 0 and split them, then rescale
    every frame. *)
Definition encode_inputs_pad_first (data : list Z) (samp_rate : Z)
  : result frames :=
  chunks <- padAndSplit 0 data (samp_rate / 100) ;;
  Ok (map rescale chunks).

(** Magnitude of a finite float [m * 2^e] rounded to the nearest integer,
    halves going away from zero. *)
Definition round_mag (m : positive) (e : Z) : Z :=
  if 0 <=? e then Z.pos m * 2 ^ e
  else (Z.pos m + 2 ^ (- e - 1)) / 2 ^ (- e).

Definition round_SF (x : spec_float) : Z :=
  match x with
  | S754_zero _ => 0
  | S754_finite sg m e =>
      let a := round_mag m e in if sg then - a else a
  | _ => int64_min
  end.

(** The inverse normalization as the specification words it: round to the
    nearest integer, then clamp. *)
Definition decode_sample_rounding (d : dtype) (f : float) : Z :=
  norm (round_SF (unscale d f)).

(** What is checked of one sample of the 16-bit range: the rescaled value
    is in the unit interval, and the inverse gives the sample back whether
    it is computed on a float64 or on a float32 array. *)
Definition int16_sample_ok (s : Z) : bool :=
  let f := normalize s in
  in_unit f && (denormalize Float64 f =? s) && (denormalize Float32 f =? s).

(** [P] holds on every integer from [lo] up to [hi - 1], by bisection. *)
Fixpoint check_range (P : Z -> bool) (fuel : nat) (lo hi : Z) : bool :=
  if hi <=? lo then true
  else if hi =? lo + 1 then P lo
  else match fuel with
       | O => false
       | S k =>
           let mid := (lo + hi) / 2 in
           check_range P k lo mid && check_range P k mid hi
       end.

(** ** Files and paths *)

Module Files.

Import String.

(** What a path can hold: a PCM file, the [.npz] container, or a saved
    decoder model. *)
Inductive file : Type :=
| WavFile (w : Wave.wav)
| NpzFile (c : npz)
| ModelFile (decoder : frames -> frames).

Definition store : Type := string -> option file.

Definition put (p : string) (x : file) (fs : store) : store :=
  fun q => if String.eqb q p then Some x else fs q.

(** How a run fails: a path that is not there, a path that holds something
    the reader cannot parse, or an exception of the pipeline itself. *)
Inductive failure : Type :=
| Missing (p : string)
| WrongKind (p : string)
| Raised (e : error).

Inductive outcome : Type :=
| Done (fs : store)
| Failed (b : failure).

(** [s.endswith(suf)]. *)
Fixpoint ends_with (s suf : string) : bool :=
  String.eqb s suf ||
  match s with
  | EmptyString => false
  | String _ t => ends_with t suf
  end.

(** The name [np.savez_compressed] writes to: [.npz] is appended unless the
    name already ends with it. *)
Definition savez_name (file : string) : string :=
  if ends_with file ".npz" then file else String.append file ".npz".

(** [encode(in_file, out_file)] on a store of files (lines 79, 134, 136). *)
Definition encode_files (fit : Z -> frames -> autoencoder)
  (in_file out_file : string) (fs : store) : outcome :=
  match fs in_file with
  | None => Failed (Missing in_file)
  | Some (WavFile w) =>
      match encode fit w with
      | Err e => Failed (Raised e)
      | Ok (c, dec) =>
          Done (put (String.append out_file ".model") (ModelFile dec)
                  (put (savez_name out_file) (NpzFile c) fs))
      end
  | Some _ => Failed (WrongKind in_file)
  end.

(** The end of [decode] once the container [c] and the decoder [dec] are
    loaded: the samples are decoded and written to [out_file + ".wav"]
    (lines 153-162). *)
Definition decode_loaded (d : dtype) (c : npz) (dec : frames -> frames)
  (out_file : string) (fs : store) : outcome :=
  match decode_file d c dec with
  | Err e => Failed (Raised e)
  | Ok f => Done (put (String.append out_file ".wav") (WavFile f) fs)
  end.

(** [decode(in_file, out_file)] on a store of files: the model is loaded
    from [in_file + ".model"], then the container from [in_file + ".npz"]
    (lines 144, 146). *)
Definition decode_files (d : dtype) (in_file out_file : string) (fs : store)
  : outcome :=
  match fs (String.append in_file ".model") with
  | None => Failed (Missing (String.append in_file ".model"))
  | Some (ModelFile dec) =>
      match fs (String.append in_file ".npz") with
      | None => Failed (Missing (String.append in_file ".npz"))
      | Some (NpzFile c) => decode_loaded d c dec out_file fs
      | Some _ => Failed (WrongKind (String.append in_file ".npz"))
      end
  | Some _ => Failed (WrongKind (String.append in_file ".model"))
  end.

End Files.

(** * Properties *)

(** ** Lists cut into pieces *)

Lemma chunk_length {A : Type} (sz count : nat) (l : list A) :
  length (Struct.chunk sz count l) = count.
Proof.
  revert l; induction count as [|k IH]; intros l; simpl; [reflexivity|].
  now rewrite IH.
Qed.

Lemma chunk_app {A : Type} (sz a b : nat) (l : list A) :
  Struct.chunk sz (a + b) l =
  Struct.chunk sz a l ++ Struct.chunk sz b (skipn (a * sz) l).
Proof.
  revert l; induction a as [|a IH]; intros l; simpl; [reflexivity|].
  rewrite IH, skipn_skipn.
  replace (a * sz + sz)%nat with (sz + a * sz)%nat by lia. reflexivity.
Qed.

Lemma chunk_firstn {A : Type} (sz count k : nat) (l : list A) :
  (count * sz <= k)%nat ->
  Struct.chunk sz count (firstn k l) = Struct.chunk sz count l.
Proof.
  revert k l; induction count as [|c IH]; intros k l Hk; simpl; [reflexivity|].
  simpl in Hk. f_equal.
  - rewrite firstn_firstn. f_equal. lia.
  - rewrite skipn_firstn_comm. apply IH. lia.
Qed.

Lemma chunk_as_map {A : Type} (sz count : nat) (l : list A) :
  Struct.chunk sz count l =
  map (fun j => firstn sz (skipn (j * sz) l)) (seq 0 count).
Proof.
  revert l; induction count as [|c IH]; intros l; [reflexivity|].
  cbn [Struct.chunk seq map]. f_equal.
  rewrite IH, <- seq_shift, map_map.
  apply map_ext; intros j. rewrite skipn_skipn. do 2 f_equal. lia.
Qed.

Lemma chunk_all_full {A : Type} (sz count : nat) (l : list A) :
  (count * sz <= length l)%nat ->
  Forall (fun p => length p = sz) (Struct.chunk sz count l).
Proof.
  revert l; induction count as [|c IH]; intros l Hl; simpl; constructor.
  - rewrite length_firstn. simpl in Hl. lia.
  - apply IH. rewrite length_skipn. simpl in Hl. lia.
Qed.

Lemma concat_chunk {A : Type} (sz count : nat) (l : list A) :
  concat (Struct.chunk sz count l) = firstn (count * sz) l.
Proof.
  revert l; induction count as [|c IH]; intros l; simpl; [reflexivity|].
  rewrite IH. rewrite <- (firstn_skipn sz l) at 3.
  destruct (Nat.le_gt_cases sz (length l)) as [Hle|Hgt].
  - rewrite firstn_app, length_firstn, Nat.min_l by exact Hle.
    rewrite firstn_firstn, Nat.min_r by lia.
    f_equal. f_equal. lia.
  - rewrite (skipn_all2 l) by lia. rewrite !firstn_nil, !app_nil_r.
    rewrite firstn_firstn. f_equal. lia.
Qed.

Lemma chunk_concat {A : Type} (sz : nat) (ls : list (list A)) :
  Forall (fun p => length p = sz) ls ->
  Struct.chunk sz (length ls) (concat ls) = ls.
Proof.
  induction 1 as [|p ls Hp _ IH]; simpl; [reflexivity|].
  subst sz.
  rewrite firstn_app, Nat.sub_diag, firstn_O, app_nil_r, firstn_all.
  rewrite skipn_app, Nat.sub_diag, skipn_O, skipn_all. simpl.
  now rewrite IH.
Qed.

Lemma length_concat_uniform {A : Type} (sz : nat) (ls : list (list A)) :
  Forall (fun p => length p = sz) ls ->
  length (concat ls) = (length ls * sz)%nat.
Proof.
  induction 1 as [|p ls Hp _ IH]; simpl; [reflexivity|].
  rewrite length_app, IH, Hp. reflexivity.
Qed.

(** ** Byte strings as numbers *)

Lemma byte_val_range (b : byte) : 0 <= Struct.byte_val b <= 255.
Proof.
  unfold Struct.byte_val. pose proof (Byte.to_N_bounded b). lia.
Qed.

Lemma le_unsigned_range (bs : list byte) :
  0 <= Struct.le_unsigned bs < 256 ^ Z.of_nat (length bs).
Proof.
  induction bs as [|b t IH]; cbn [Struct.le_unsigned length].
  - change (256 ^ Z.of_nat 0) with 1. lia.
  - rewrite Nat2Z.inj_succ, Z.pow_succ_r by lia.
    pose proof (byte_val_range b). lia.
Qed.

(** A zero byte in front of three bytes, read as a signed 32-bit word and
    shifted right by 8, is the 24-bit signed value of the three bytes. *)
Lemma word32_of_triple (t : list byte) :
  length t = 3%nat ->
  Z.shiftr (Struct.unpack_one Struct.Fi (x00 :: t)) 8 = sext24 t.
Proof.
  intros Ht. pose proof (le_unsigned_range t) as Hu. rewrite Ht in Hu.
  change (256 ^ Z.of_nat 3) with 16777216 in Hu.
  unfold sext24, Struct.unpack_one, Struct.to_signed.
  cbn [Struct.le_unsigned]. change (Struct.byte_val x00) with 0.
  change (Struct.bits Struct.Fi) with 32.
  change (2 ^ (32 - 1)) with 2147483648. change (2 ^ 32) with 4294967296.
  change (2 ^ (24 - 1)) with 8388608. change (2 ^ 24) with 16777216.
  rewrite Z.shiftr_div_pow2 by lia. change (2 ^ 8) with 256.
  set (u := Struct.le_unsigned t) in *.
  destruct (Z.ltb_spec (0 + 256 * u) 2147483648) as [H1|H1];
    destruct (Z.ltb_spec u 8388608) as [H2|H2]; try lia.
  - replace (0 + 256 * u) with (u * 256) by lia. apply Z.div_mul. lia.
  - replace (0 + 256 * u - 4294967296) with ((u - 16777216) * 256) by lia.
    apply Z.div_mul. lia.
Qed.

(** ** The width-3 reading loops *)

Lemma range3_triples (chans : Z) :
  0 <= chans ->
  range3 (3 * chans) = map (fun j => 3 * Z.of_nat j) (seq 0 (Z.to_nat chans)).
Proof.
  intros Hc. unfold range3.
  replace ((3 * chans + 2) / 3) with chans; [reflexivity|].
  apply Z.div_unique with 2; lia.
Qed.

(** The first turn of the inner loop adds the text ['\0'] to the bytes of
    the frame, which Python 3 refuses. *)
Lemma widen_frame_raises (cs : list Z) (fr : list byte) (s : pystring) :
  cs <> [] -> widen_frame cs fr s = Err TypeError.
Proof.
  destruct cs as [|c rest]; [contradiction|]. reflexivity.
Qed.

Lemma read_24_raises (k : nat) (chans : Z) (r : Wave.reader) (s : pystring) :
  (0 < k)%nat -> 1 <= chans -> read_24 k chans r s = Err TypeError.
Proof.
  intros Hk Hc. destruct k as [|k]; [lia|].
  cbn [read_24]. destruct (Wave.readframes 1 r) as [fr r1].
  rewrite widen_frame_raises; [reflexivity|].
  rewrite range3_triples by lia.
  destruct (Z.to_nat chans) as [|m] eqn:E; [lia|discriminate].
Qed.

(** What [wave.open] guarantees about the header it returns. *)
Lemma open_read_inv (f : Wave.wav) (r : Wave.reader) :
  Wave.open_read f = Ok r ->
  r = {| Wave.r_nchannels := Z.of_N (Wave.nchannels f);
         Wave.r_sampwidth := Z.of_N (Wave.sampwidth f);
         Wave.r_framerate := Z.of_N (Wave.framerate f);
         Wave.r_nframes :=
           Z.of_N (Wave.chunksize f)
           / (Z.of_N (Wave.nchannels f) * Z.of_N (Wave.sampwidth f));
         Wave.r_framesize := Z.of_N (Wave.nchannels f) * Z.of_N (Wave.sampwidth f);
         Wave.r_rest := firstn (N.to_nat (Wave.chunksize f)) (Wave.payload f) |}
  /\ 0 < Z.of_N (Wave.nchannels f) /\ 0 < Z.of_N (Wave.sampwidth f).
Proof.
  unfold Wave.open_read.
  destruct (N.eqb_spec (Wave.sampwidth f) 0) as [H0|H0]; [discriminate|].
  destruct (N.eqb_spec (Wave.nchannels f) 0) as [H1|H1]; [discriminate|].
  intros H; injection H as <-. split; [reflexivity|]. lia.
Qed.

(** A file with at least one channel and one byte per sample is opened. *)
Lemma open_read_ok (f : Wave.wav) :
  Wave.nchannels f <> 0%N -> Wave.sampwidth f <> 0%N ->
  exists r, Wave.open_read f = Ok r.
Proof.
  intros Hc Hw. unfold Wave.open_read.
  destruct (N.eqb_spec (Wave.sampwidth f) 0) as [|_]; [contradiction|].
  destruct (N.eqb_spec (Wave.nchannels f) 0) as [|_]; [contradiction|].
  eexists. reflexivity.
Qed.

(** The frames announced by the header fit in the declared size. *)
Lemma frames_fit (len chans w : Z) :
  0 <= len -> 0 < chans -> 0 < w ->
  0 <= len / (chans * w) /\ (len / (chans * w)) * chans * w <= len.
Proof.
  intros Hl Hc Hw.
  assert (Hp : 0 < chans * w) by nia.
  pose proof (Z.mul_div_le len (chans * w) Hp).
  pose proof (Z.div_pos len (chans * w) Hl Hp). nia.
Qed.

Lemma unpack_words (c : Struct.format) (ws : list (list byte)) :
  Forall (fun p => length p = Struct.size c) ws ->
  Struct.unpack_bytes (Z.of_nat (length ws)) c (concat ws) =
  Ok (map (Struct.unpack_one c) ws).
Proof.
  intros Hws. unfold Struct.unpack_bytes.
  rewrite (length_concat_uniform _ _ Hws), Nat2Z.inj_mul, Z.eqb_refl.
  now rewrite Nat2Z.id, chunk_concat.
Qed.

(** ** Reading an opened file *)

Section OpenedFile.

Variables (f : Wave.wav) (r : Wave.reader).
Hypothesis Hopen : Wave.open_read f = Ok r.

Local Abbreviation chans := (Wave.r_nchannels r).
Local Abbreviation samps := (Wave.r_nframes r).
Local Abbreviation width := (Wave.r_sampwidth r).

(** The header of an opened file: there is at least one channel and one
    byte per sample, and the frames it announces are within the size the
    data chunk declares. *)
Lemma opened_header :
  0 < chans /\ 0 < width /\ 0 <= samps /\
  Wave.r_framesize r = chans * width /\
  Wave.r_rest r = firstn (N.to_nat (Wave.chunksize f)) (Wave.payload f) /\
  samps * chans * width <= Z.of_N (Wave.chunksize f).
Proof.
  destruct (open_read_inv _ _ Hopen) as (Hr & Hc & Hw).
  destruct (frames_fit (Z.of_N (Wave.chunksize f)) _ _
              ltac:(lia) Hc Hw) as [Hs0 Hfit].
  rewrite Hr. cbn [Wave.r_nchannels Wave.r_sampwidth Wave.r_nframes
                     Wave.r_framesize Wave.r_rest].
  repeat split; try assumption; reflexivity.
Qed.

(** The bytes [readframes(samps)] returns: the announced frames when they
    are in the file, and fewer bytes than that when the file is cut short. *)
Lemma readframes_all :
  let s := fst (Wave.readframes samps r) in
  (samps * chans * width <= Z.of_nat (length (Wave.payload f)) ->
   s = firstn (Z.to_nat (samps * chans * width)) (Wave.payload f) /\
   Z.of_nat (length s) = samps * chans * width) /\
  (Z.of_nat (length (Wave.payload f)) < samps * chans * width ->
   Z.of_nat (length s) < samps * chans * width).
Proof.
  destruct opened_header as (Hc & Hw & Hs0 & Hfs & Hrest & Hfit).
  cbv zeta. unfold Wave.readframes. cbn [fst]. rewrite Hfs, Hrest.
  replace (samps * (chans * width)) with (samps * chans * width) by lia.
  split.
  - intros Hwhole. split.
    + rewrite firstn_firstn. f_equal. lia.
    + rewrite !length_firstn. lia.
  - intros Hshort. rewrite !length_firstn. lia.
Qed.

(** *** Width 3 *)

(** With a sample to read the loop raises at its first addition; with none,
    the accumulator is still the text [''] and [struct.unpack] refuses it. *)
Lemma dataFromWave_width3 : width = 3 -> dataFromWave f = Err TypeError.
Proof.
  intros Hw.
  destruct opened_header as (Hc & _ & Hs0 & _).
  unfold dataFromWave. rewrite Hopen. cbn [bind].
  rewrite Hw. cbn [Z.eqb Pos.eqb].
  destruct (Z.to_nat samps) as [|k] eqn:Hk.
  - reflexivity.
  - rewrite read_24_raises by lia. reflexivity.
Qed.

(** *** The other widths *)

Lemma dataFromWave_plain (c : Struct.format) :
  width <> 3 ->
  width_format width = Ok c ->
  Z.of_nat (Struct.size c) = width ->
  samps * chans * width <= Z.of_nat (length (Wave.payload f)) ->
  dataFromWave f =
    Ok (map (Struct.unpack_one c)
          (Struct.chunk (Struct.size c) (Z.to_nat (samps * chans))
             (Wave.payload f)),
        chans, samps, width, Wave.r_framerate r).
Proof.
  intros Hn3 Hfmt Hsz Hwhole.
  destruct opened_header as (Hc & Hw & Hs0 & Hfs & Hrest & Hfit).
  destruct readframes_all as [Hall _]. cbv zeta in Hall.
  destruct (Hall Hwhole) as [Hs _].
  unfold dataFromWave. rewrite Hopen. cbn [bind].
  destruct (Z.eqb_spec width 3) as [|_]; [contradiction|].
  cbn [bind]. rewrite Hfmt. cbn [bind]. rewrite Hs. cbn [Struct.unpack].
  set (n := Z.to_nat (samps * chans)).
  set (ws := Struct.chunk (Struct.size c) n (Wave.payload f)).
  assert (Hfull : Forall (fun p => length p = Struct.size c) ws).
  { apply chunk_all_full. unfold n. nia. }
  replace (firstn (Z.to_nat (samps * chans * width)) (Wave.payload f))
    with (concat ws).
  - replace (samps * chans) with (Z.of_nat (length ws)).
    + now rewrite unpack_words.
    + unfold ws. rewrite chunk_length. unfold n. nia.
  - unfold ws. rewrite concat_chunk. f_equal. unfold n. nia.
Qed.

(** A data chunk cut short of the frames its header announces. *)
Lemma dataFromWave_short (c : Struct.format) :
  width <> 3 ->
  width_format width = Ok c ->
  Z.of_nat (Struct.size c) = width ->
  Z.of_nat (length (Wave.payload f)) < samps * chans * width ->
  dataFromWave f = Err StructError.
Proof.
  intros Hn3 Hfmt Hsz Hshort.
  destruct readframes_all as [_ Hless]. cbv zeta in Hless.
  specialize (Hless Hshort).
  unfold dataFromWave. rewrite Hopen. cbn [bind].
  destruct (Z.eqb_spec width 3) as [|_]; [contradiction|].
  cbn [bind]. rewrite Hfmt. cbn [bind Struct.unpack].
  unfold Struct.unpack_bytes.
  destruct (Z.eqb_spec (Z.of_nat (length (fst (Wave.readframes samps r))))
              (samps * chans * Z.of_nat (Struct.size c))) as [E|_];
    [|reflexivity].
  rewrite Hsz in E. lia.
Qed.

End OpenedFile.

(** C7: the width-3 path of [dataFromWave] is written to put a zero byte
    in the first (low-order) position of a 4-byte little-endian word, to
    unpack the words as signed 32-bit integers and to shift each right by 8
    bits, which is the sign-extended 24-bit value of the three bytes; but
    the accumulator is a text string and the bytes read are not, so the path
    raises [TypeError] on every file of width 3.  For the widths 1, 2, 4 and
    8 the payload is unpacked with the signed little-endian format of that
    width (8, 16, 32 and 64 bits) when the frames announced are in the
    file. *)
Theorem dataFromWave_width3_raises (f : Wave.wav) (r : Wave.reader) :
  Wave.open_read f = Ok r ->
  let chans := Wave.r_nchannels r in
  let samps := Wave.r_nframes r in
  let n := Z.to_nat (samps * chans) in
  (Wave.r_sampwidth r = 3 ->
   width_format 3 = Ok Struct.Fi /\
   (forall t, length t = 3%nat ->
      Z.shiftr (Struct.unpack_one Struct.Fi (x00 :: t)) 8 = sext24 t) /\
   (forall fr s, widen_frame (range3 (3 * chans)) fr s = Err TypeError) /\
   Struct.unpack (samps * chans) Struct.Fi (Text []) = Err TypeError /\
   dataFromWave f = Err TypeError)
  /\
  (forall w c,
     In (w, c) [(1, Struct.Fb); (2, Struct.Fh); (4, Struct.Fi); (8, Struct.Fq)] ->
     Wave.r_sampwidth r = w ->
     samps * chans * w <= Z.of_nat (length (Wave.payload f)) ->
     Struct.bits c = 8 * w /\
     dataFromWave f =
       Ok (map (Struct.unpack_one c)
             (Struct.chunk (Struct.size c) n (Wave.payload f)),
           chans, samps, w, Wave.r_framerate r)).
Proof.
  intros Hopen. cbv zeta. split.
  - intros Hw. destruct (opened_header f r Hopen) as (Hc & _).
    split; [reflexivity|]. split; [exact word32_of_triple|].
    split.
    { intros fr s. apply widen_frame_raises. rewrite range3_triples by lia.
      destruct (Z.to_nat (Wave.r_nchannels r)) eqn:E; [lia|discriminate]. }
    split; [reflexivity|].
    now apply (dataFromWave_width3 f r Hopen).
  - intros w c Hin Hw Hwhole. split.
    + simpl in Hin.
      repeat (destruct Hin as [Hin|Hin]; [injection Hin as <- <-; reflexivity|]).
      contradiction.
    + rewrite <- Hw in Hwhole |- *.
      apply dataFromWave_plain; try assumption; rewrite Hw;
        simpl in Hin;
        repeat (destruct Hin as [Hin|Hin];
                [injection Hin as <- <-; (reflexivity || discriminate)|]);
        contradiction.
Qed.

Lemma dataFromWave_width3_raises_witness :
  dataFromWave
    (Wave.mk_wav 2 3 8000
       [x01; x02; x03; xff; xff; xff; x00; x00; x80; xff; xff; x7f]) =
  Err TypeError /\
  map sext24 [[x01; x02; x03]; [xff; xff; xff]; [x00; x00; x80]; [xff; xff; x7f]] =
  [197121; -1; -8388608; 8388607].
Proof.
  pose (f := Wave.mk_wav 2 3 8000
               [x01; x02; x03; xff; xff; xff; x00; x00; x80; xff; xff; x7f]).
  pose (r := Wave.mk_reader 2 3 8000 2 6 (Wave.payload f)).
  destruct (dataFromWave_width3_raises f r eq_refl) as [H3 _].
  destruct (H3 eq_refl) as (_ & _ & _ & _ & H).
  split; [exact H|reflexivity].
Defined.

(** ** Packing and the writing loop *)

Lemma byte_val_of_Z (z : Z) : Struct.byte_val (Struct.byte_of_Z z) = z mod 256.
Proof.
  unfold Struct.byte_val, Struct.byte_of_Z.
  pose proof (Z.mod_pos_bound z 256 ltac:(lia)) as Hz.
  destruct (Byte.of_N (Z.to_N (z mod 256))) as [b|] eqn:E.
  - apply Byte.to_of_N in E. rewrite E. lia.
  - apply Byte.of_N_None_iff in E. lia.
Qed.

Lemma length_le_bytes (n : nat) (u : Z) : length (Struct.le_bytes n u) = n.
Proof.
  revert u; induction n as [|n IH]; intros u; simpl; [reflexivity|].
  now rewrite IH.
Qed.

Lemma le_unsigned_le_bytes (n : nat) (u : Z) :
  Struct.le_unsigned (Struct.le_bytes n u) = u mod 256 ^ Z.of_nat n.
Proof.
  revert u; induction n as [|n IH]; intros u.
  - simpl. now rewrite Z.mod_1_r.
  - cbn [Struct.le_bytes Struct.le_unsigned].
    rewrite IH, byte_val_of_Z, Nat2Z.inj_succ, Z.pow_succ_r by lia.
    rewrite Z.rem_mul_r; [reflexivity|lia|]. apply Z.pow_pos_nonneg; lia.
Qed.

Lemma length_packed (c : Struct.format) (v : Z) :
  length (Struct.packed c v) = Struct.size c.
Proof. apply length_le_bytes. Qed.

Lemma to_signed_mod (w v : Z) :
  0 < w ->
  - 2 ^ (w - 1) <= v < 2 ^ (w - 1) ->
  Struct.to_signed w (v mod 2 ^ w) = v.
Proof.
  intros Hw Hv. unfold Struct.to_signed.
  assert (H2 : 2 ^ w = 2 * 2 ^ (w - 1)).
  { rewrite <- Z.pow_succ_r by lia. f_equal. lia. }
  rewrite H2. set (h := 2 ^ (w - 1)) in *.
  destruct (Z.neg_nonneg_cases v) as [Hneg|Hpos].
  - replace (v mod (2 * h)) with (v + 2 * h).
    + destruct (Z.ltb_spec (v + 2 * h) h); lia.
    + apply Z.mod_unique with (-1); lia.
  - rewrite Z.mod_small by lia.
    destruct (Z.ltb_spec v h); lia.
Qed.

(** Packing a representable value and unpacking it gives the value back. *)
Lemma unpack_one_packed (c : Struct.format) (v : Z) :
  Struct.representable c v = true ->
  Struct.unpack_one c (Struct.packed c v) = v.
Proof.
  unfold Struct.representable, Struct.unpack_one, Struct.packed.
  rewrite le_unsigned_le_bytes. intros H.
  apply andb_prop in H as [Hlo Hhi].
  apply Z.leb_le in Hlo. apply Z.ltb_lt in Hhi.
  replace (256 ^ Z.of_nat (Struct.size c)) with (2 ^ Struct.bits c)
    by (destruct c; reflexivity).
  rewrite Z.mod_mod by (destruct c; discriminate).
  apply to_signed_mod; [destruct c; reflexivity|lia].
Qed.

Lemma skipn_cons_nth {A : Type} (l : list A) (s : nat) (v : A) :
  nth_error l s = Some v -> skipn s l = v :: skipn (S s) l.
Proof.
  revert s; induction l as [|a l IH]; intros [|s] H; simpl in *;
    try discriminate.
  - now injection H as ->.
  - now apply IH.
Qed.

Lemma set_written_same (w : Wave.writer) :
  Wave.set_written w (Wave.w_written w) = w.
Proof. destruct w; reflexivity. Qed.

(** *** The header at the first write *)

(** The data size enters the header test through its own field only. *)
Lemma header_fits_datasize (chans width rate d : Z) :
  header_fits chans width rate d =
  header_fits chans width rate 0 && (36 + d <=? 4294967295).
Proof.
  unfold header_fits. change (36 + 0 <=? 4294967295) with true.
  now rewrite andb_true_r.
Qed.

Lemma initial_datalength_bound (chans width l : Z) :
  1 <= chans -> 1 <= width -> 0 <= l ->
  0 <= Wave.initial_datalength chans width l <= l.
Proof.
  intros Hc Hw Hl. unfold Wave.initial_datalength.
  destruct (frames_fit l chans width Hl ltac:(lia) ltac:(lia)). lia.
Qed.

(** [writeframesraw] changes nothing but the list of strings written. *)
Lemma writeframesraw_inv (bs : list byte) (obj obj' : Wave.writer) :
  Wave.writeframesraw bs obj = Ok obj' ->
  obj' = Wave.set_written obj (Wave.w_written obj ++ [bs]).
Proof.
  unfold Wave.writeframesraw.
  destruct (Wave.ensure_header_written _ obj); cbn [bind]; [|discriminate].
  now intros H; injection H as <-.
Qed.

(** It fails with [struct.error] or with the module's own error only. *)
Lemma writeframesraw_errors (bs : list byte) (obj : Wave.writer) (e : error) :
  Wave.writeframesraw bs obj = Err e -> e = StructError \/ e = WaveError.
Proof.
  unfold Wave.writeframesraw, Wave.ensure_header_written.
  destruct (Wave.header_written obj); cbn [bind]; [discriminate|].
  destruct (Wave.w_nchannels obj) as [c0|];
    destruct (Wave.w_sampwidth obj) as [wd|];
    destruct (Wave.w_framerate obj) as [r0|]; cbn [bind];
    try (intros H; injection H as <-; now right).
  destruct (header_fits _ _ _ _); cbn [bind]; [discriminate|].
  intros H; injection H as <-; now left.
Qed.

Section HeaderThatFits.

Variables chans width rate : Z.
Hypothesis Hchans : 1 <= chans.
Hypothesis Hwidth : 1 <= width.
Hypothesis Hfits : header_fits chans width rate 0 = true.

(** With a header that fits, a short byte string is always written. *)
Lemma writeframesraw_ok (bs : list byte) (obj : Wave.writer) :
  has_header chans width rate obj ->
  (length bs <= 8)%nat ->
  Wave.writeframesraw bs obj =
  Ok (Wave.set_written obj (Wave.w_written obj ++ [bs])).
Proof.
  intros (H1 & H2 & H3) Hlen.
  unfold Wave.writeframesraw, Wave.ensure_header_written.
  destruct (Wave.header_written obj); [reflexivity|].
  rewrite H1, H2, H3.
  pose proof (initial_datalength_bound chans width (Z.of_nat (length bs))
                Hchans Hwidth ltac:(lia)) as Hd.
  rewrite header_fits_datasize, Hfits. cbn [andb].
  destruct (Z.leb_spec (36 + Wave.initial_datalength chans width
                               (Z.of_nat (length bs))) 4294967295);
    [reflexivity|lia].
Qed.

Lemma has_header_set_written (obj : Wave.writer) (ws : list (list byte)) :
  has_header chans width rate obj ->
  has_header chans width rate (Wave.set_written obj ws).
Proof. intros H. exact H. Qed.

Lemma write_packed (c : Struct.format) (v : Z) (obj : Wave.writer) :
  has_header chans width rate obj ->
  Wave.writeframesraw (Struct.packed c v) obj =
  Ok (Wave.set_written obj (Wave.w_written obj ++ [Struct.packed c v])).
Proof.
  intros H. apply writeframesraw_ok; [exact H|].
  rewrite length_packed. destruct c; simpl; lia.
Qed.

(** When every value met is there and representable, the loop runs to its
    end and has written one packed value per index. *)
Lemma write_loop_ok (c : Struct.format) (data : list Z) (k : nat) :
  forall (s : nat) (obj : Wave.writer),
    has_header chans width rate obj ->
    (s + k <= length data)%nat ->
    Forall (fun v => Struct.representable c v = true) (firstn k (skipn s data)) ->
    write_loop c data (seq s k) obj =
    (Wave.set_written obj
       (Wave.w_written obj ++ map (Struct.packed c) (firstn k (skipn s data))),
     None).
Proof.
  induction k as [|k IH]; intros s obj Hh Hlen Hrep.
  - simpl. now rewrite app_nil_r, set_written_same.
  - cbn [seq write_loop].
    destruct (nth_error data s) as [v|] eqn:Hv.
    2:{ apply nth_error_None in Hv. lia. }
    rewrite (skipn_cons_nth _ _ _ Hv) in Hrep |- *.
    cbn [firstn map] in Hrep |- *.
    inversion Hrep as [|? ? Hv1 Hrest]; subst.
    unfold Struct.pack. rewrite Hv1, (write_packed c v obj Hh).
    rewrite IH by (try lia; assumption).
    unfold Wave.set_written. cbn.
    now rewrite <- app_assoc.
Qed.


End HeaderThatFits.

(** The loop never writes more values than it has indices, and it writes
    exactly that many precisely when it is left without an exception. *)
Lemma write_loop_count (c : Struct.format) (data : list Z) (idx : list nat) :
  forall obj : Wave.writer,
    let res := write_loop c data idx obj in
    (length (Wave.w_written (fst res)) <=
       length (Wave.w_written obj) + length idx)%nat /\
    (snd res = None <->
     length (Wave.w_written (fst res)) =
       (length (Wave.w_written obj) + length idx)%nat).
Proof.
  induction idx as [|i idx IH]; intros obj; cbn zeta.
  - simpl. split; [lia|]. split; [intros _; lia|reflexivity].
  - cbn [write_loop].
    destruct (nth_error data i) as [v|].
    2:{ simpl. split; [lia|]. split; [discriminate|lia]. }
    destruct (Struct.pack c v) as [bs|e].
    2:{ simpl. split; [lia|]. split; [discriminate|lia]. }
    destruct (Wave.writeframesraw bs obj) as [obj1|e] eqn:Hwr.
    2:{ simpl. split; [lia|]. split; [discriminate|lia]. }
    apply writeframesraw_inv in Hwr.
    specialize (IH obj1). cbn zeta in IH.
    assert (Hw : length (Wave.w_written obj1) = S (length (Wave.w_written obj))).
    { rewrite Hwr. cbn. rewrite length_app. simpl. lia. }
    rewrite Hw in IH. simpl length.
    destruct IH as [IH1 IH2]. split; [lia|].
    rewrite IH2. lia.
Qed.

Lemma write_loop_header (c : Struct.format) (data : list Z) (idx : list nat) :
  forall obj : Wave.writer,
    let w := fst (write_loop c data idx obj) in
    Wave.w_nchannels w = Wave.w_nchannels obj /\
    Wave.w_sampwidth w = Wave.w_sampwidth obj /\
    Wave.w_framerate w = Wave.w_framerate obj.
Proof.
  induction idx as [|i idx IH]; intros obj; cbn zeta; [simpl; auto|].
  cbn [write_loop].
  destruct (nth_error data i) as [v|]; [|simpl; auto].
  destruct (Struct.pack c v) as [bs|e]; [|simpl; auto].
  destruct (Wave.writeframesraw bs obj) as [obj1|e] eqn:Hwr; [|simpl; auto].
  apply writeframesraw_inv in Hwr. specialize (IH obj1). cbn zeta in IH.
  destruct IH as (H1 & H2 & H3). rewrite H1, H2, H3, Hwr.
  repeat split.
Qed.

(** The only exceptions the loop can be left with. *)
Lemma write_loop_errors (c : Struct.format) (data : list Z) (idx : list nat) :
  forall (obj : Wave.writer) (e : error),
    snd (write_loop c data idx obj) = Some e ->
    e = IndexError \/ e = StructError \/ e = WaveError.
Proof.
  induction idx as [|i idx IH]; intros obj e; cbn [write_loop];
    [discriminate|].
  destruct (nth_error data i) as [v|];
    [|intros H; injection H as <-; now left].
  unfold Struct.pack. destruct (Struct.representable c v);
    [|intros H; injection H as <-; right; now left].
  destruct (Wave.writeframesraw (Struct.packed c v) obj) as [obj1|e1] eqn:Hwr.
  - apply IH.
  - intros H; injection H as <-. right.
    exact (writeframesraw_errors _ _ _ Hwr).
Qed.

(** The three header setters followed by the format lookup. *)
Lemma dataToWave_as_unfold (k : number) (data : list Z)
  (chans samps width rate : Z) (c : Struct.format) :
  1 <= chans -> 1 <= width <= 4 -> 1 <= rate ->
  width_format width = Ok c ->
  dataToWave_as k data chans samps width rate =
  write_loop c data (seq 0 (Z.to_nat (num_mul k samps chans)))
    {| Wave.w_nchannels := Some chans; Wave.w_sampwidth := Some width;
       Wave.w_framerate := Some rate; Wave.w_written := [] |}.
Proof.
  intros Hc Hw Hr Hfmt. unfold dataToWave_as, Wave.setnchannels.
  destruct (Z.ltb_spec chans 1); [lia|].
  unfold Wave.setsampwidth.
  destruct (Z.ltb_spec width 1); [lia|]. destruct (Z.ltb_spec 4 width); [lia|].
  cbn [orb]. unfold Wave.setframerate.
  destruct (Z.leb_spec rate 0); [lia|].
  now rewrite Hfmt.
Qed.

Lemma dataToWave_unfold (data : list Z) (chans samps width rate : Z)
  (c : Struct.format) :
  1 <= chans -> 1 <= width <= 4 -> 1 <= rate ->
  width_format width = Ok c ->
  dataToWave data chans samps width rate =
  write_loop c data (seq 0 (Z.to_nat (samps * chans)))
    {| Wave.w_nchannels := Some chans; Wave.w_sampwidth := Some width;
       Wave.w_framerate := Some rate; Wave.w_written := [] |}.
Proof. apply (dataToWave_as_unfold PyInt). Qed.

(** A product within int64 does not wrap. *)
Lemma wrap64_small (z : Z) : int64_min <= z <= int64_max -> wrap64 z = z.
Proof.
  unfold int64_min, int64_max, wrap64. intros Hz.
  rewrite Z.mod_small by lia. lia.
Qed.

(** The header test does not depend on the kind of the numbers: for values
    the setters accept, a product that would wrap belongs to a header that
    already has a field too large. *)
Lemma header_fits_numpy (chans width rate d : Z) :
  1 <= chans -> 1 <= width <= 4 -> 1 <= rate -> 0 <= d ->
  header_fits_as NpInt64 chans width rate d = header_fits chans width rate d /\
  header_fits_as PyInt chans width rate d = header_fits chans width rate d.
Proof.
  intros Hc Hw Hr Hd. unfold header_fits_as, header_fits, fits_unsigned.
  cbn [num_mul]. change (2 ^ 32) with 4294967296. change (2 ^ 16) with 65536.
  destruct (Z.leb_spec chans 65535) as [Hc1|Hc1].
  2:{ replace (chans <? 65536) with false by (symmetry; apply Z.ltb_ge; lia).
      rewrite !andb_false_r. split; reflexivity. }
  destruct (Z.leb_spec rate 4294967295) as [Hr1|Hr1].
  2:{ replace (rate <? 4294967296) with false by (symmetry; apply Z.ltb_ge; lia).
      rewrite !andb_false_r. split; reflexivity. }
  assert (Hp : 0 <= chans * rate <= 65535 * 4294967295) by nia.
  assert (H1 : 0 <= chans * rate * width <= 65535 * 4294967295 * 4).
  { set (p := chans * rate) in *. nia. }
  assert (H2 : 0 <= chans * width <= 65535 * 4) by nia.
  rewrite (wrap64_small (chans * rate)) by (unfold int64_min, int64_max; lia).
  rewrite (wrap64_small (chans * rate * width))
    by (unfold int64_min, int64_max; lia).
  rewrite (wrap64_small (chans * width)) by (unfold int64_min, int64_max; lia).
  rewrite (wrap64_small (width * 8)) by (unfold int64_min, int64_max; lia).
  split; apply Bool.eq_true_iff_eq;
    rewrite !andb_true_iff, !Z.leb_le, !Z.ltb_lt; lia.
Qed.

(** Called with int64 scalars whose product does not wrap, [dataToWave]
    does what it does on Python integers. *)
Lemma dataToWave_int64 (data : list Z) (chans samps width rate : Z) :
  int64_min <= samps * chans <= int64_max ->
  dataToWave_as NpInt64 data chans samps width rate =
  dataToWave data chans samps width rate.
Proof.
  intros Hz. unfold dataToWave, dataToWave_as. cbn [num_mul].
  now rewrite wrap64_small.
Qed.

(** A run without exception: the header is as asked and the first
    [samps*chans] values are written, packed in the width's format. *)
Lemma dataToWave_ok (data : list Z) (chans samps width rate : Z)
  (c : Struct.format) :
  1 <= chans -> 1 <= width <= 4 -> 1 <= rate ->
  header_fits chans width rate 0 = true ->
  width_format width = Ok c ->
  let n := Z.to_nat (samps * chans) in
  (n <= length data)%nat ->
  Forall (fun v => Struct.representable c v = true) (firstn n data) ->
  dataToWave data chans samps width rate =
  ({| Wave.w_nchannels := Some chans; Wave.w_sampwidth := Some width;
      Wave.w_framerate := Some rate;
      Wave.w_written := map (Struct.packed c) (firstn n data) |}, None).
Proof.
  intros Hc Hw Hr Hfits Hfmt n Hn Hrep.
  rewrite (dataToWave_unfold _ _ _ _ _ c) by assumption.
  fold n.
  rewrite (write_loop_ok chans width rate Hc ltac:(lia) Hfits);
    [reflexivity|repeat split|lia|exact Hrep].
Qed.

(** The header parameters [dataFromWave] returns are those of the file. *)
Lemma dataFromWave_params (f : Wave.wav) (r : Wave.reader)
  (x : list Z) (chans samps width rate : Z) :
  Wave.open_read f = Ok r ->
  dataFromWave f = Ok (x, chans, samps, width, rate) ->
  chans = Wave.r_nchannels r /\ samps = Wave.r_nframes r /\
  width = Wave.r_sampwidth r /\ rate = Wave.r_framerate r.
Proof.
  intros Hopen. unfold dataFromWave. rewrite Hopen. cbn [bind].
  match goal with
  | |- context [bind ?m _] => destruct m as [s|e]
  end; [|discriminate]. cbn [bind].
  destruct (width_format (Wave.r_sampwidth r)) as [c|e]; [|discriminate].
  cbn [bind].
  match goal with
  | |- context [Struct.unpack ?a ?b ?s] => destruct (Struct.unpack a b s)
  end; [|discriminate].
  cbn [bind]. intros H. injection H as _ <- <- <- <-. auto.
Qed.

(** *** Closing the writer *)

(** A writer whose header fits with the data it holds is closed into the
    file with that header and that data. *)
Lemma close_ok (chans width rate : Z) (ws : list (list byte)) :
  1 <= chans -> 1 <= width ->
  header_fits chans width rate (Z.of_nat (length (concat ws))) = true ->
  Wave.close {| Wave.w_nchannels := Some chans; Wave.w_sampwidth := Some width;
                Wave.w_framerate := Some rate; Wave.w_written := ws |} =
  Ok {| Wave.nchannels := Z.to_N chans; Wave.sampwidth := Z.to_N width;
        Wave.framerate := Z.to_N rate;
        Wave.chunksize := N.of_nat (length (concat ws));
        Wave.payload := concat ws |}.
Proof.
  intros Hc Hw Hfits. rewrite header_fits_datasize in Hfits.
  apply andb_prop in Hfits as [H0 Hd].
  unfold Wave.close, Wave.ensure_header_written, Wave.header_written,
    Wave.w_data.
  cbn [Wave.w_written Wave.w_nchannels Wave.w_sampwidth Wave.w_framerate].
  assert (Hhead : (match ws with
                   | [] =>
                       if header_fits chans width rate
                            (Wave.initial_datalength chans width 0)
                       then Ok tt else Err StructError
                   | _ :: _ => Ok tt
                   end) = Ok tt).
  { destruct ws; [|reflexivity].
    unfold Wave.initial_datalength. rewrite Z.div_0_l by nia.
    cbn [Z.mul]. now rewrite H0. }
  destruct ws as [|p ws'] eqn:Ews.
  - rewrite Hhead. cbn [bind]. rewrite Hd. rewrite andb_false_r.
    now rewrite <- nat_N_Z, N2Z.id.
  - cbn [bind]. rewrite Hd. rewrite andb_false_r.
    now rewrite <- nat_N_Z, N2Z.id.
Qed.

(** C8: for a stream of sample width 3 [dataToWave] does not mirror the
    three-bytes-per-sample layout the reading path is written for: every
    sample is packed with the 4-byte signed 32-bit format while the header
    still declares the width 3, so the file written for the samples of a
    width-3 file has a data chunk of 4 bytes per sample where that file has
    3. *)
Theorem dataToWave_width3_layout (data : list Z) (chans samps rate : Z) :
  1 <= chans -> 1 <= rate ->
  let n := Z.to_nat (samps * chans) in
  (n <= length data)%nat ->
  Forall (fun v => Struct.representable Struct.Fi v = true) (firstn n data) ->
  header_fits chans 3 rate (4 * Z.of_nat n) = true ->
  exists w g,
    dataToWave data chans samps 3 rate = (w, None) /\
    Wave.w_sampwidth w = Some 3 /\
    Wave.w_written w = map (Struct.packed Struct.Fi) (firstn n data) /\
    Forall (fun p => length p = 4%nat) (Wave.w_written w) /\
    map (Struct.unpack_one Struct.Fi) (Wave.w_written w) = firstn n data /\
    length (Wave.w_data w) = (4 * n)%nat /\
    dataToWave_file data chans samps 3 rate = Ok g /\
    Wave.sampwidth g = 3%N /\
    Wave.payload g = Wave.w_data w /\
    Wave.chunksize g = N.of_nat (4 * n) /\
    (forall f : Wave.wav,
       Wave.sampwidth f = 3%N ->
       length (Wave.payload f) = (3 * n)%nat ->
       (0 < n)%nat ->
       Wave.payload g <> Wave.payload f).
Proof.
  intros Hc Hr n Hn Hrep Hfits.
  assert (Hfits0 : header_fits chans 3 rate 0 = true).
  { rewrite header_fits_datasize in Hfits. now apply andb_prop in Hfits. }
  assert (Hfull : Forall (fun p => length p = 4%nat)
                    (map (Struct.packed Struct.Fi) (firstn n data))).
  { apply Forall_map, Forall_forall. intros v _. apply length_packed. }
  assert (Hlen : length (concat (map (Struct.packed Struct.Fi) (firstn n data)))
                 = (4 * n)%nat).
  { rewrite (length_concat_uniform _ _ Hfull), length_map, length_firstn. lia. }
  assert (Hrun : dataToWave data chans samps 3 rate =
                 ({| Wave.w_nchannels := Some chans; Wave.w_sampwidth := Some 3;
                     Wave.w_framerate := Some rate;
                     Wave.w_written :=
                       map (Struct.packed Struct.Fi) (firstn n data) |}, None)).
  { apply (dataToWave_ok data chans samps 3 rate Struct.Fi);
      [assumption|lia|assumption|assumption|reflexivity|assumption|assumption]. }
  eexists. eexists. split; [exact Hrun|].
  cbn [Wave.w_sampwidth Wave.w_written].
  split; [reflexivity|]. split; [reflexivity|]. split; [exact Hfull|].
  split.
  { rewrite map_map. rewrite <- (map_id (firstn n data)) at 2.
    apply map_ext_in. intros v Hv. apply unpack_one_packed.
    now apply (proj1 (Forall_forall _ _) Hrep). }
  split; [exact Hlen|].
  split.
  { unfold dataToWave_file. rewrite Hrun. cbn [finish].
    apply close_ok; [assumption|lia|].
    rewrite Hlen. replace (Z.of_nat (4 * n)) with (4 * Z.of_nat n) by lia.
    exact Hfits. }
  cbn [Wave.sampwidth Wave.payload Wave.chunksize]. unfold Wave.w_data.
  cbn [Wave.w_written]. rewrite Hlen.
  split; [reflexivity|]. split; [reflexivity|]. split; [reflexivity|].
  intros f _ H3n Hpos Heq. rewrite <- Heq, Hlen in H3n. lia.
Qed.

Lemma dataToWave_width3_layout_witness :
  exists w g,
    dataToWave [197121; -1; -8388608; 8388607] 2 2 3 8000 = (w, None) /\
    Wave.w_sampwidth w = Some 3 /\
    length (Wave.w_data w) = 16%nat /\
    dataToWave_file [197121; -1; -8388608; 8388607] 2 2 3 8000 = Ok g /\
    Wave.sampwidth g = 3%N /\
    Wave.payload g <>
    [x01; x02; x03; xff; xff; xff; x00; x00; x80; xff; xff; x7f].
Proof.
  destruct (dataToWave_width3_layout
              [197121; -1; -8388608; 8388607] 2 2 8000)
    as (w & g & Hrun & Hwd & _ & _ & _ & Hlen & Hfile & Hgw & _ & _ & Hdiff).
  - lia.
  - lia.
  - simpl. lia.
  - repeat constructor.
  - reflexivity.
  - exists w, g. repeat split; try assumption.
    apply (Hdiff (Wave.mk_wav 2 3 8000
                    [x01; x02; x03; xff; xff; xff; x00; x00; x80; xff; xff; x7f]));
      [reflexivity|reflexivity|simpl; lia].
Defined.

(** ** Padding and splitting *)

Lemma skipn_repeat {A : Type} (v : A) (k n : nat) :
  skipn k (repeat v n) = repeat v (n - k).
Proof.
  revert k; induction n as [|n IH]; intros [|k]; simpl; try reflexivity.
  apply IH.
Qed.

(** The padded length is the next multiple of [rate] strictly above the
    input length. *)
Lemma padded_size (n rate : Z) :
  1 <= rate -> 0 <= n ->
  n + (rate - n mod rate) = rate * (n / rate + 1) /\
  0 < rate - n mod rate <= rate /\ 0 <= n / rate.
Proof.
  intros Hr Hn.
  pose proof (Z.div_mod n rate ltac:(lia)) as Hdm.
  pose proof (Z.mod_pos_bound n rate ltac:(lia)) as Hm.
  pose proof (Z.div_pos n rate Hn ltac:(lia)) as Hq.
  repeat split; lia.
Qed.

(** With a positive frame length the padding block never fails, and its
    frames are the pieces of the input followed by the zeros. *)
Lemma padAndSplit_spec {A : Type} (zero : A) (data : list A) (rate : Z) :
  1 <= rate ->
  let n := Z.of_nat (length data) in
  padAndSplit zero data rate =
  Ok (Struct.chunk (Z.to_nat rate) (Z.to_nat (n / rate + 1))
        (data ++ repeat zero (Z.to_nat (rate - n mod rate)))).
Proof.
  intros Hr n.
  destruct (padded_size n rate Hr ltac:(lia)) as (Hp & Hpad & Hq).
  unfold padAndSplit. fold n.
  destruct (Z.eqb_spec rate 0) as [|_]; [lia|].
  set (p_size := n + (rate - n mod rate)) in *.
  unfold np_zeros. destruct (Z.ltb_spec p_size 0) as [|_]; [lia|].
  cbn [bind]. unfold assign_prefix. rewrite repeat_length.
  replace (Nat.min (Z.to_nat n) (Z.to_nat p_size)) with (length data) by lia.
  rewrite Nat.eqb_refl. cbn [bind]. rewrite skipn_repeat.
  replace (Z.to_nat p_size - length data)%nat
    with (Z.to_nat (rate - n mod rate)) by lia.
  unfold np_split. rewrite length_app, repeat_length.
  replace (Z.of_nat (length data + Z.to_nat (rate - n mod rate))) with p_size
    by lia.
  assert (Hsec : p_size / rate = n / rate + 1).
  { rewrite Hp, Z.mul_comm. apply Z.div_mul. lia. }
  rewrite Hsec.
  destruct (Z.eqb_spec (n / rate + 1) 0) as [|_]; [lia|].
  assert (Hmod : p_size mod (n / rate + 1) = 0).
  { rewrite Hp. apply Z.mod_mul. lia. }
  rewrite Hmod. cbn [Z.eqb negb].
  destruct (Z.ltb_spec (n / rate + 1) 0) as [|_]; [lia|].
  replace (p_size / (n / rate + 1)) with rate; [reflexivity|].
  rewrite Hp. symmetry. apply Z.div_mul. lia.
Qed.

(** C1: for an input of [n >= 1] samples and a frame length [L >= 1] the
    padding block yields exactly [n / L + 1] frames of exactly [L] elements;
    the padded length is [n + (L - n mod L)], a multiple of [L] strictly
    greater than [n]; and when [L] divides [n] the last frame is a whole
    frame of zeros after the frames of the input. *)
Theorem padAndSplit_frame_count {A : Type} (zero : A) (data : list A) (L : Z) :
  (1 <= length data)%nat -> 1 <= L ->
  let n := Z.of_nat (length data) in
  exists frames,
    padAndSplit zero data L = Ok frames /\
    Z.of_nat (length frames) = n / L + 1 /\
    Forall (fun fr => Z.of_nat (length fr) = L) frames /\
    concat frames = data ++ repeat zero (Z.to_nat (L - n mod L)) /\
    Z.of_nat (length (concat frames)) = n + (L - n mod L) /\
    Z.of_nat (length (concat frames)) mod L = 0 /\
    n < Z.of_nat (length (concat frames)) /\
    (n mod L = 0 ->
     frames =
     Struct.chunk (Z.to_nat L) (Z.to_nat (n / L)) data
       ++ [repeat zero (Z.to_nat L)]).
Proof.
  intros _ HL n.
  destruct (padded_size n L HL ltac:(lia)) as (Hp & Hpad & Hq).
  eexists. split; [apply padAndSplit_spec; exact HL|]. fold n.
  set (padded := data ++ repeat zero (Z.to_nat (L - n mod L))).
  assert (Hlen : Z.of_nat (length padded) = n + (L - n mod L)).
  { unfold padded. rewrite length_app, repeat_length. lia. }
  assert (Hcat : concat (Struct.chunk (Z.to_nat L) (Z.to_nat (n / L + 1)) padded)
                 = padded).
  { rewrite concat_chunk. apply firstn_all2. nia. }
  split; [rewrite chunk_length; lia|].
  split.
  { eapply Forall_impl; [|apply chunk_all_full; nia].
    intros fr Hfr; simpl in Hfr. lia. }
  rewrite Hcat, Hlen. split; [reflexivity|]. split; [reflexivity|].
  split; [rewrite Hp, Z.mul_comm; apply Z.mod_mul; lia|].
  split; [lia|].
  intros Hdiv.
  assert (Hn : n = L * (n / L))
    by (pose proof (Z.div_mod n L ltac:(lia)); lia).
  replace (Z.to_nat (n / L + 1)) with (Z.to_nat (n / L) + 1)%nat by lia.
  rewrite chunk_app. f_equal.
  - rewrite <- (chunk_firstn _ _ (length data)) by nia.
    unfold padded. now rewrite firstn_app, Nat.sub_diag, firstn_all, firstn_O, app_nil_r.
  - replace (Z.to_nat (n / L) * Z.to_nat L)%nat with (length data) by nia.
    unfold padded. rewrite skipn_app, skipn_all, Nat.sub_diag, skipn_O.
    cbn [Struct.chunk app]. rewrite Hdiv, Z.sub_0_r. f_equal.
    apply firstn_all2. rewrite repeat_length. lia.
Qed.

Lemma padAndSplit_frame_count_witness :
  exists frames,
    padAndSplit 0%float (repeat 0.5%float 200) 100 = Ok frames /\
    Z.of_nat (length frames) = 3 /\
    Forall (fun fr => Z.of_nat (length fr) = 100) frames /\
    Z.of_nat (length (concat frames)) = 300.
Proof.
  destruct (padAndSplit_frame_count 0%float (repeat 0.5%float 200) 100)
    as (frames & Hrun & Hcount & Hfull & _ & Hlen & _).
  - rewrite repeat_length. lia.
  - lia.
  - exists frames. rewrite repeat_length in Hcount, Hlen.
    repeat split; assumption.
Defined.

(** ** Exhaustive checks over an integer range *)

Lemma check_range_sound (P : Z -> bool) (fuel : nat) :
  forall lo hi : Z,
    check_range P fuel lo hi = true ->
    forall s : Z, lo <= s < hi -> P s = true.
Proof.
  induction fuel as [|k IH]; intros lo hi Hchk s Hs; cbn [check_range] in Hchk;
    destruct (Z.leb_spec hi lo) as [Hle|Hlt]; try lia;
    destruct (Z.eqb_spec hi (lo + 1)) as [Heq|Hne];
    try (replace s with lo by lia; exact Hchk); try discriminate.
  apply andb_prop in Hchk as [Hl Hh].
  destruct (Z.lt_ge_cases s ((lo + hi) / 2)) as [Hs1|Hs1].
  - apply (IH _ _ Hl). lia.
  - apply (IH _ _ Hh). lia.
Qed.

(** ** The rescaling on the 16-bit range *)

Lemma rescale_map (data : list Z) : rescale data = map normalize data.
Proof. unfold rescale. now rewrite !map_map. Qed.

Lemma int16_samples_ok (s : Z) : in_int16 s -> int16_sample_ok s = true.
Proof.
  intros [Hlo Hhi].
  apply (check_range_sound int16_sample_ok 17 (-32768) 32768);
    [vm_compute; reflexivity|lia].
Qed.

(** On the 16-bit range the rescaling and its inverse are exact. *)
Lemma roundtrip_exact (d : dtype) (s : Z) :
  in_int16 s -> denormalize d (normalize s) = s.
Proof.
  intros Hs. pose proof (int16_samples_ok s Hs) as H.
  unfold int16_sample_ok in H. cbv zeta in H.
  apply andb_prop in H as [H H32]. apply andb_prop in H as [_ H64].
  destruct d; now apply Z.eqb_eq.
Qed.

Lemma normalize_in_unit (s : Z) :
  in_int16 s -> in_unit (normalize s) = true.
Proof.
  intros Hs. pose proof (int16_samples_ok s Hs) as H.
  unfold int16_sample_ok in H. cbv zeta in H.
  apply andb_prop in H as [H _]. now apply andb_prop in H as [H _].
Qed.

Lemma norm_range (x : Z) : -32768 <= norm x <= 32767.
Proof.
  unfold norm. destruct (Z.ltb_spec x (-32768)); [lia|].
  destruct (Z.ltb_spec 32767 x); lia.
Qed.

Lemma norm_id (x : Z) : in_int16 x -> norm x = x.
Proof.
  intros [Hlo Hhi]. unfold norm.
  destruct (Z.ltb_spec x (-32768)); [lia|].
  destruct (Z.ltb_spec 32767 x); lia.
Qed.

(** C3: for every integer [s] from -32768 to 32767, rescaling [s] and then
    applying the inverse (convert back to an integer, then clamp), with
    nothing changing the normalized value in between, gives a value that
    differs from [s] by at most 1, whether the inverse is computed on a
    float64 or on a float32 array. *)
Theorem quantization_bound (d : dtype) (s : Z) :
  -32768 <= s <= 32767 ->
  Z.abs (decode_sample d (normalize s) - s) <= 1.
Proof.
  intros Hs. unfold decode_sample.
  rewrite (roundtrip_exact d s Hs), (norm_id s Hs). lia.
Qed.

Lemma quantization_bound_witness :
  Z.abs (decode_sample Float32 (normalize (-12345)) - (-12345)) <= 1.
Proof. apply (quantization_bound Float32 (-12345)). lia. Defined.

(** ** The inverse: conversion to integers and clamp *)

(** [trunc_mag] is the integer part of [m * 2^e]. *)
Lemma trunc_mag_spec (m : positive) (e : Z) :
  (0 <= e -> trunc_mag m e = Z.pos m * 2 ^ e) /\
  (e < 0 ->
   trunc_mag m e * 2 ^ (- e) <= Z.pos m < (trunc_mag m e + 1) * 2 ^ (- e)).
Proof.
  unfold trunc_mag. destruct (Z.leb_spec 0 e) as [He|He].
  - split; [reflexivity|lia].
  - split; [lia|]. intros _.
    assert (Hd : 0 < 2 ^ (- e)) by (apply Z.pow_pos_nonneg; lia).
    pose proof (Z.div_mod (Z.pos m) (2 ^ (- e)) ltac:(lia)) as Hdm.
    pose proof (Z.mod_pos_bound (Z.pos m) (2 ^ (- e)) Hd) as Hm.
    nia.
Qed.

Lemma norm_cases (t : Z) :
  (t < -32768 -> norm t = -32768) /\
  (32767 < t -> norm t = 32767) /\
  (-32768 <= t <= 32767 -> norm t = t).
Proof.
  unfold norm. destruct (Z.ltb_spec t (-32768)); [repeat split; lia|].
  destruct (Z.ltb_spec 32767 t); repeat split; lia.
Qed.

(** C4, as the code has it: for every normalized float [f] the inverse
    computes [(f * 2.0 - 1.0) * 32768.0], converts it to an integer by
    dropping the fraction (rounding toward zero, not to the nearest
    integer), and then clamps: values below -32768 become -32768, values
    above 32767 become 32767, all other values are unchanged. *)
Theorem decode_sample_truncates_then_clamps (d : dtype) (f : float) :
  let x := unscale d f in
  let t := astype_int_SF x in
  decode_sample d f = norm t /\
  (t < -32768 -> decode_sample d f = -32768) /\
  (32767 < t -> decode_sample d f = 32767) /\
  (-32768 <= t <= 32767 -> decode_sample d f = t) /\
  -32768 <= decode_sample d f <= 32767 /\
  (forall sg m e,
     x = S754_finite sg m e ->
     let a := trunc_mag m e in
     (0 <= e -> a = Z.pos m * 2 ^ e) /\
     (e < 0 -> a * 2 ^ (- e) <= Z.pos m < (a + 1) * 2 ^ (- e)) /\
     (a <= int64_max -> t = if sg then - a else a)).
Proof.
  cbv zeta. unfold decode_sample, denormalize.
  set (t := astype_int_SF (unscale d f)).
  destruct (norm_cases t) as (H1 & H2 & H3).
  split; [reflexivity|]. split; [exact H1|]. split; [exact H2|].
  split; [exact H3|]. split; [apply norm_range|].
  intros sg m e Hx.
  split; [apply trunc_mag_spec|]. split; [apply trunc_mag_spec|].
  unfold t. rewrite Hx. cbn [astype_int_SF].
  intros Ha.
  assert (H0 : 0 <= trunc_mag m e).
  { destruct (trunc_mag_spec m e) as [Hp Hn].
    destruct (Z.le_gt_cases 0 e) as [He|He].
    - rewrite (Hp He). apply Z.mul_nonneg_nonneg; [lia|].
      apply Z.pow_nonneg; lia.
    - specialize (Hn He).
      assert (Hd : 0 < 2 ^ (- e)) by (apply Z.pow_pos_nonneg; lia). nia. }
  unfold int64_min, int64_max in *.
  destruct sg.
  - destruct (Z.leb_spec (-9223372036854775808) (- trunc_mag m e));
      destruct (Z.leb_spec (- trunc_mag m e) 9223372036854775807);
      cbn [andb]; lia.
  - destruct (Z.leb_spec (-9223372036854775808) (trunc_mag m e));
      destruct (Z.leb_spec (trunc_mag m e) 9223372036854775807);
      cbn [andb]; lia.
Qed.

Lemma decode_sample_truncates_then_clamps_witness :
  decode_sample Float32 0x1.00018p-1%float = 0 /\
  decode_sample Float64 1%float = 32767.
Proof.
  split.
  - destruct (decode_sample_truncates_then_clamps Float32 0x1.00018p-1%float)
      as (_ & _ & _ & H & _).
    apply H. vm_compute. split; discriminate.
  - destruct (decode_sample_truncates_then_clamps Float64 1%float)
      as (_ & _ & H & _).
    apply H. vm_compute. reflexivity.
Defined.

(** C4, as the specification words it, fails: at [f = 0.5 + 3 * 2^-18] the
    value [(f * 2.0 - 1.0) * 32768.0] is 0.75, whose nearest integer is 1,
    and the code yields 0. *)
Lemma decode_sample_is_not_rounding :
  unscale Float64 0x1.00018p-1%float
    = S754_finite false (3 * 2 ^ 51) (-53) /\
  unscale Float32 0x1.00018p-1%float
    = S754_finite false (3 * 2 ^ 22) (-24) /\
  forall d : dtype,
    decode_sample_rounding d 0x1.00018p-1%float = 1 /\
    decode_sample d 0x1.00018p-1%float = 0 /\
    decode_sample d 0x1.00018p-1%float
      <> decode_sample_rounding d 0x1.00018p-1%float.
Proof.
  split; [vm_compute; reflexivity|]. split; [vm_compute; reflexivity|].
  intros d. destruct d; repeat split; try (vm_compute; reflexivity);
    vm_compute; discriminate.
Qed.

(** C10: the clamp bounds the decoded values to the 16-bit range only,
    whatever the sample width, while [dataToWave] packs with the format of
    the width.  So for a width-1 stream there is a normalized value in
    [0, 1] whose clamped inverse lies outside -128..127: the pack step of the
    writing loop is reached with it and raises. *)
Theorem clamp_ignores_width :
  (forall x, -32768 <= norm x <= 32767) /\
  norm 32767 = 32767 /\ norm (-32768) = -32768 /\
  width_format 1 = Ok Struct.Fb /\
  (forall v, Struct.representable Struct.Fb v = (-128 <=? v) && (v <? 128)) /\
  exists f : float,
    in_unit f = true /\
    forall d : dtype,
      decode_sample d f = 24576 /\
      Struct.pack Struct.Fb (decode_sample d f) = Err StructError /\
      decode_out d {| npz_data := [[f]]; npz_params := [1; 1; 1; 8000] |}
        (fun x => x) = Ok [decode_sample d f] /\
      dataToWave [decode_sample d f] 1 1 1 8000 =
        ({| Wave.w_nchannels := Some 1; Wave.w_sampwidth := Some 1;
            Wave.w_framerate := Some 8000; Wave.w_written := [] |},
         Some StructError).
Proof.
  split; [exact norm_range|].
  repeat split.
  exists 0.875%float. split; [reflexivity|].
  intros d. destruct d; repeat split; vm_compute; reflexivity.
Qed.

(** ** The frames handed to the network *)

Lemma frame_rate_positive (samp_rate : Z) : 100 <= samp_rate -> 1 <= samp_rate / 100.
Proof. intros H. apply Z.div_le_lower_bound; lia. Qed.

(** With a sample rate of at least 100 the front end of [encode] does not
    fail, and the frames laid end to end are the rescaled samples followed by
    float zeros. *)
Lemma encode_inputs_spec (data : list Z) (samp_rate : Z) :
  100 <= samp_rate ->
  let rate := samp_rate / 100 in
  let n := Z.of_nat (length data) in
  exists frames,
    encode_inputs data samp_rate = Ok frames /\
    concat frames =
      map normalize data ++ repeat 0%float (Z.to_nat (rate - n mod rate)).
Proof.
  intros Hr rate n. pose proof (frame_rate_positive _ Hr) as Hrate.
  unfold encode_inputs. rewrite rescale_map.
  rewrite padAndSplit_spec by exact Hrate.
  rewrite length_map. fold rate n.
  destruct (padded_size n rate Hrate ltac:(lia)) as (Hp & Hpad & Hq).
  eexists. split; [reflexivity|].
  rewrite concat_chunk. apply firstn_all2.
  rewrite length_app, length_map, repeat_length. nia.
Qed.

Lemma to_signed_range (w u : Z) :
  0 < w -> 0 <= u < 2 ^ w ->
  - 2 ^ (w - 1) <= Struct.to_signed w u < 2 ^ (w - 1).
Proof.
  intros Hw Hu. unfold Struct.to_signed.
  assert (H2 : 2 ^ w = 2 * 2 ^ (w - 1)).
  { rewrite <- Z.pow_succ_r by lia. f_equal. lia. }
  destruct (Z.ltb_spec u (2 ^ (w - 1))); lia.
Qed.

Lemma unpack_one_representable (c : Struct.format) (bs : list byte) :
  length bs = Struct.size c ->
  Struct.representable c (Struct.unpack_one c bs) = true.
Proof.
  intros Hlen. pose proof (le_unsigned_range bs) as Hu. rewrite Hlen in Hu.
  replace (256 ^ Z.of_nat (Struct.size c)) with (2 ^ Struct.bits c) in Hu
    by (destruct c; reflexivity).
  pose proof (to_signed_range (Struct.bits c) _ ltac:(destruct c; reflexivity) Hu)
    as Hs.
  unfold Struct.representable, Struct.unpack_one.
  apply andb_true_intro. split; [apply Z.leb_le|apply Z.ltb_lt]; lia.
Qed.

(** The samples read from a file of width 1, 2, 4 or 8 fit the format of
    that width. *)
Lemma dataFromWave_samples_fit (f : Wave.wav) (c : Struct.format)
  (data : list Z) (chans samps width rate : Z) :
  dataFromWave f = Ok (data, chans, samps, width, rate) ->
  width <> 3 ->
  width_format width = Ok c ->
  Z.of_nat (Struct.size c) = width ->
  Forall (fun v => Struct.representable c v = true) data.
Proof.
  intros Hrun Hn3 Hfmt Hsz.
  destruct (Wave.open_read f) as [r|e] eqn:Hopen.
  2:{ unfold dataFromWave in Hrun. rewrite Hopen in Hrun. discriminate. }
  destruct (dataFromWave_params _ _ _ _ _ _ _ Hopen Hrun) as (E1 & E2 & E3 & E4).
  rewrite E3 in Hn3, Hfmt, Hsz.
  destruct (Z.le_gt_cases
              (Wave.r_nframes r * Wave.r_nchannels r * Wave.r_sampwidth r)
              (Z.of_nat (length (Wave.payload f)))) as [Hwhole|Hshort].
  2:{ rewrite (dataFromWave_short f r Hopen c Hn3 Hfmt Hsz) in Hrun by lia.
      discriminate. }
  rewrite (dataFromWave_plain f r Hopen c Hn3 Hfmt Hsz Hwhole) in Hrun.
  injection Hrun as <- _ _ _.
  apply Forall_map.
  destruct (opened_header f r Hopen) as (Hc & Hw & Hs0 & _).
  eapply Forall_impl; [intros bs Hbs; apply unpack_one_representable; exact Hbs|].
  apply chunk_all_full. nia.
Qed.

(** C9, as the code has it: the rescaling divides by 32768 whatever the
    sample width, so it is for streams whose samples lie in the 16-bit range
    (every stream of width 1 or 2) that every value of every frame handed to
    the network, padding included, lies in the interval from 0.0 to 1.0. *)
Theorem frames_in_unit_interval (f : Wave.wav) (data : list Z)
  (chans samps width rate : Z) :
  dataFromWave f = Ok (data, chans, samps, width, rate) ->
  100 <= rate ->
  width = 1 \/ width = 2 \/ Forall in_int16 data ->
  exists frames,
    encode_inputs data rate = Ok frames /\
    Forall (Forall (fun x => in_unit x = true)) frames.
Proof.
  intros Hrun Hrate Hwidth.
  assert (Hdata : Forall in_int16 data).
  { destruct Hwidth as [-> | [-> | H]]; [| |exact H].
    - eapply Forall_impl;
        [|apply (dataFromWave_samples_fit f Struct.Fb _ _ _ _ _ Hrun);
          [discriminate|reflexivity|reflexivity]].
      intros v Hv. apply andb_prop in Hv as [Hlo Hhi].
      apply Z.leb_le in Hlo. apply Z.ltb_lt in Hhi.
      change (2 ^ (Struct.bits Struct.Fb - 1)) with 128 in *.
      unfold in_int16. lia.
    - eapply Forall_impl;
        [|apply (dataFromWave_samples_fit f Struct.Fh _ _ _ _ _ Hrun);
          [discriminate|reflexivity|reflexivity]].
      intros v Hv. apply andb_prop in Hv as [Hlo Hhi].
      apply Z.leb_le in Hlo. apply Z.ltb_lt in Hhi.
      change (2 ^ (Struct.bits Struct.Fh - 1)) with 32768 in *.
      unfold in_int16. lia. }
  destruct (encode_inputs_spec data rate Hrate) as (frames & Hok & Hcat).
  exists frames. split; [exact Hok|].
  apply Forall_concat. rewrite Hcat. apply Forall_app. split.
  - apply Forall_map. eapply Forall_impl; [|exact Hdata].
    intros s Hs. now apply normalize_in_unit.
  - apply Forall_forall. intros x Hx. apply repeat_spec in Hx. now subst x.
Qed.

Lemma frames_in_unit_interval_witness :
  exists frames,
    encode_inputs [513; -1] 8000 = Ok frames /\
    Forall (Forall (fun x => in_unit x = true)) frames.
Proof.
  apply (frames_in_unit_interval
           (Wave.mk_wav 1 2 8000 [x01; x02; xff; xff]) [513; -1] 1 2 2 8000).
  - reflexivity.
  - lia.
  - right. left. reflexivity.
Defined.

(** C9, as the specification words it, fails for wider samples: the single
    sample 65536 of a width-4 stream is rescaled to 1.5. *)
Lemma wide_sample_leaves_unit_interval :
  dataFromWave (Wave.mk_wav 1 4 8000 [x00; x00; x01; x00])
    = Ok ([65536], 1, 1, 4, 8000) /\
  exists frames,
    encode_inputs [65536] 8000 = Ok frames /\
    In 1.5%float (concat frames) /\
    in_unit 1.5%float = false /\
    ~ Forall (Forall (fun x => in_unit x = true)) frames.
Proof.
  split; [reflexivity|].
  eexists. split; [vm_compute; reflexivity|].
  split; [left; reflexivity|]. split; [reflexivity|].
  intros H. inversion H as [|fr rest Hfr _]. inversion Hfr as [|x xs Hx _].
  vm_compute in Hx. discriminate.
Qed.

(** C5, as the code has it: [encode] rescales the flat samples first and
    pads afterwards (order: rescale, then pad and split); the padding
    elements are float zeros appended to the rescaled array, so every
    padding position holds 0.0, the image of the integer sample -32768,
    while the image of the integer sample 0 is 0.5. *)
Theorem encode_pads_after_rescaling (data : list Z) (samp_rate : Z) :
  100 <= samp_rate ->
  let rate := samp_rate / 100 in
  let n := length data in
  let pad := Z.to_nat (rate - Z.of_nat n mod rate) in
  exists frames,
    encode_inputs data samp_rate = Ok frames /\
    encode_inputs data samp_rate = padAndSplit 0%float (rescale data) rate /\
    concat frames = map normalize data ++ repeat 0%float pad /\
    (0 < pad)%nat /\
    (forall i s, nth_error data i = Some s ->
                 nth_error (concat frames) i = Some (normalize s)) /\
    (forall i, (n <= i < n + pad)%nat ->
               nth_error (concat frames) i = Some 0%float) /\
    normalize (-32768) = 0%float /\
    normalize 0 = 0.5%float.
Proof.
  intros Hr rate n pad.
  destruct (encode_inputs_spec data samp_rate Hr) as (frames & Hok & Hcat).
  pose proof (frame_rate_positive _ Hr) as Hrate.
  destruct (padded_size (Z.of_nat n) rate Hrate ltac:(lia)) as (_ & Hpad & _).
  exists frames. fold rate n pad in Hcat.
  split; [exact Hok|]. split; [reflexivity|]. split; [exact Hcat|].
  split; [unfold pad; lia|].
  rewrite Hcat. repeat split.
  - intros i s Hi.
    assert (Hlt : (i < length data)%nat)
      by (apply nth_error_Some; rewrite Hi; discriminate).
    rewrite nth_error_app1 by (rewrite length_map; exact Hlt).
    now rewrite nth_error_map, Hi.
  - intros i Hi.
    rewrite nth_error_app2 by (rewrite length_map; fold n; lia).
    rewrite length_map. apply nth_error_repeat. fold n. lia.
Qed.

Lemma encode_pads_after_rescaling_witness :
  exists frames,
    encode_inputs [0; 5; -7] 200 = Ok frames /\
    nth_error (concat frames) 3 = Some 0%float.
Proof.
  destruct (encode_pads_after_rescaling [0; 5; -7] 200)
    as (frames & Hok & _ & _ & _ & _ & Hpad & _).
  - lia.
  - exists frames. split; [exact Hok|]. apply Hpad. simpl. lia.
Defined.

(** C5, as the specification words it, fails: one sample of value 0 at a
    frame length of 2 gives the frame [0.5, 0.0], where padding before
    rescaling would have given [0.5, 0.5]. *)
Lemma padding_is_not_rescaled :
  encode_inputs [0] 200 = Ok [[0.5; 0]]%float /\
  encode_inputs_pad_first [0] 200 = Ok [[0.5; 0.5]]%float /\
  (0 =? 0.5)%float = false /\
  encode_inputs [0] 200 <> encode_inputs_pad_first [0] 200.
Proof.
  repeat split; try reflexivity.
  intros H.
  apply (f_equal (fun r => match r with
                           | Ok [[_; y]] => PrimFloat.eqb y 0
                           | _ => false
                           end)) in H.
  vm_compute in H. discriminate.
Qed.

(** ** Writing the decoded samples *)

(** A run of [dataToWave] that is left without exception has set the three
    header fields to its arguments and has written exactly as many values
    as the product [samps*chans] says. *)
Lemma dataToWave_success_inv (k : number) (out : list Z)
  (chans samps width rate : Z) (w : Wave.writer) :
  dataToWave_as k out chans samps width rate = (w, None) ->
  Wave.w_nchannels w = Some chans /\
  Wave.w_sampwidth w = Some width /\
  Wave.w_framerate w = Some rate /\
  length (Wave.w_written w) = Z.to_nat (num_mul k samps chans).
Proof.
  unfold dataToWave_as, Wave.setnchannels, Wave.setsampwidth, Wave.setframerate.
  destruct (chans <? 1); [discriminate|].
  destruct ((width <? 1) || (4 <? width)); [discriminate|].
  destruct (rate <=? 0); [discriminate|].
  destruct (width_format width) as [c|e]; [|discriminate].
  cbn [Wave.w_nchannels Wave.w_sampwidth Wave.w_framerate Wave.w_written
         Wave.open_write].
  intros Hrun.
  match type of Hrun with
  | write_loop ?c ?d ?idx ?obj = _ =>
      pose proof (write_loop_header c d idx obj) as Hh;
      pose proof (write_loop_count c d idx obj) as Hn
  end.
  cbn zeta in Hh, Hn. rewrite Hrun in Hh, Hn. cbn [fst snd] in Hh, Hn.
  destruct Hh as (H1 & H2 & H3). destruct Hn as [_ Hn].
  rewrite length_seq in Hn. cbn in H1, H2, H3, Hn.
  repeat split; try assumption. now apply Hn.
Qed.

(** The clamp makes every value fit the 2-, 4- and 8-byte formats. *)
Lemma norm_fits (c : Struct.format) (x : Z) :
  c <> Struct.Fb -> Struct.representable c (norm x) = true.
Proof.
  intros Hc. pose proof (norm_range x) as Hx.
  unfold Struct.representable.
  apply andb_true_intro.
  destruct c; try contradiction.
  - change (2 ^ (Struct.bits Struct.Fh - 1)) with 32768.
    split; [apply Z.leb_le|apply Z.ltb_lt]; lia.
  - change (2 ^ (Struct.bits Struct.Fi - 1)) with 2147483648.
    split; [apply Z.leb_le|apply Z.ltb_lt]; lia.
  - change (2 ^ (Struct.bits Struct.Fq - 1)) with 9223372036854775808.
    split; [apply Z.leb_le|apply Z.ltb_lt]; lia.
Qed.

Lemma decode_out_spec (d : dtype) (ins : npz) (decoder : frames -> frames) :
  decoder (npz_data ins) <> [] ->
  decode_out d ins decoder =
  Ok (map (decode_sample d) (concat (decoder (npz_data ins)))).
Proof.
  intros Hne. unfold decode_out, np_concatenate.
  destruct (decoder (npz_data ins)) as [|o os]; [contradiction|].
  cbn [bind]. now rewrite map_map.
Qed.

Lemma Forall_firstn_of {A : Type} (P : A -> Prop) (n : nat) (l : list A) :
  Forall P l -> Forall P (firstn n l).
Proof.
  revert n; induction l as [|a l IH]; intros [|n] H; simpl; try constructor.
  - now inversion H.
  - apply IH. now inversion H.
Qed.

(** The size of the data the header has to hold bounds the number of
    samples, so their product does not wrap. *)
Lemma count_within_int64 (chans width rate samps size : Z) :
  1 <= chans -> 0 <= samps -> 1 <= size ->
  header_fits chans width rate (samps * chans * size) = true ->
  int64_min <= samps * chans <= int64_max.
Proof.
  intros Hc Hs Hsz Hfits. rewrite header_fits_datasize in Hfits.
  apply andb_prop in Hfits as [_ Hd]. apply Z.leb_le in Hd.
  unfold int64_min, int64_max. nia.
Qed.

(** What [decode] does once its parameters are read and the decoder has
    answered: a run left without exception. *)
Lemma decode_run (d : dtype) (ins : npz) (decoder : frames -> frames)
  (chans samps width rate : Z) (c : Struct.format) :
  decode_params ins = Ok (chans, samps, width, rate) ->
  1 <= chans -> 1 <= rate -> 1 <= width <= 4 -> 0 <= samps ->
  width_format width = Ok c ->
  header_fits chans width rate (samps * chans * Z.of_nat (Struct.size c)) = true ->
  let n := Z.to_nat (samps * chans) in
  let out := map (decode_sample d) (concat (decoder (npz_data ins))) in
  (n < length out)%nat ->
  Forall (fun v => Struct.representable c v = true) (firstn n out) ->
  let w := {| Wave.w_nchannels := Some chans; Wave.w_sampwidth := Some width;
              Wave.w_framerate := Some rate;
              Wave.w_written := map (Struct.packed c) (firstn n out) |} in
  let g := {| Wave.nchannels := Z.to_N chans; Wave.sampwidth := Z.to_N width;
              Wave.framerate := Z.to_N rate;
              Wave.chunksize := Z.to_N (samps * chans * Z.of_nat (Struct.size c));
              Wave.payload := concat (map (Struct.packed c) (firstn n out)) |} in
  decode d ins decoder = Ok (w, None) /\
  decode_file d ins decoder = Ok g /\
  Z.of_nat (length (Wave.payload g)) = samps * chans * Z.of_nat (Struct.size c).
Proof.
  intros Hpar Hc Hr Hw Hs Hfmt Hfits n out Hlen Hrep w g.
  assert (Hsz : 1 <= Z.of_nat (Struct.size c)) by (destruct c; simpl; lia).
  pose proof (count_within_int64 _ _ _ _ _ Hc Hs Hsz Hfits) as H64.
  assert (Hfits0 : header_fits chans width rate 0 = true).
  { rewrite header_fits_datasize in Hfits. now apply andb_prop in Hfits. }
  assert (Hne : decoder (npz_data ins) <> []).
  { intros E. unfold out in Hlen. rewrite E in Hlen. simpl in Hlen. lia. }
  assert (Hsize : Z.of_nat (length (concat (map (Struct.packed c) (firstn n out))))
                  = samps * chans * Z.of_nat (Struct.size c)).
  { rewrite (length_concat_uniform (Struct.size c)).
    - rewrite length_map, length_firstn. unfold n. nia.
    - apply Forall_map, Forall_forall. intros v _. apply length_packed. }
  assert (Hrun : decode d ins decoder = Ok (w, None)).
  { unfold decode. rewrite Hpar. cbn [bind].
    rewrite decode_out_spec by exact Hne. cbn [bind]. fold out.
    rewrite dataToWave_int64 by exact H64.
    rewrite (dataToWave_ok out chans samps width rate c); try assumption;
      [reflexivity|fold n; lia]. }
  split; [exact Hrun|]. split.
  - unfold decode_file. rewrite Hrun. cbn [bind finish]. unfold w.
    rewrite close_ok; [|assumption|lia|now rewrite Hsize].
    unfold g. rewrite <- Hsize. now rewrite <- nat_N_Z, N2Z.id.
  - exact Hsize.
Qed.

(** C2, as the code has it: the loop of [dataToWave] runs over the first
    [samps*chans] decoded values and stops at a value the width's format
    cannot hold.  For parameters the writer accepts and can store in the
    header, whenever every one of those clamped values fits the format
    (always so for the widths 2, 3 and 4) and the decoded frames hold more
    than [samps*chans] values, exactly [samps*chans] sample values are
    written, they are the data of the file [decode] leaves, and frames
    appended after them change nothing. *)
Theorem decode_writes_sample_count (d : dtype) (ins : npz)
  (decoder : frames -> frames) (chans samps width rate : Z)
  (c : Struct.format) :
  decode_params ins = Ok (chans, samps, width, rate) ->
  1 <= chans -> 1 <= rate -> 1 <= width <= 4 -> 0 <= samps ->
  width_format width = Ok c ->
  header_fits chans width rate (samps * chans * Z.of_nat (Struct.size c)) = true ->
  let n := Z.to_nat (samps * chans) in
  let outputs := decoder (npz_data ins) in
  let out := map (decode_sample d) (concat outputs) in
  (n < length (concat outputs))%nat ->
  (width = 1 ->
   Forall (fun v => Struct.representable Struct.Fb v = true) (firstn n out)) ->
  exists w g,
    decode d ins decoder = Ok (w, None) /\
    Wave.w_written w = map (Struct.packed c) (firstn n out) /\
    length (Wave.w_written w) = n /\
    decode_file d ins decoder = Ok g /\
    Wave.payload g = concat (map (Struct.packed c) (firstn n out)) /\
    Z.of_nat (length (Wave.payload g)) = samps * chans * Z.of_nat (Struct.size c) /\
    (forall extra,
       decode d ins (fun x => decoder x ++ extra) = Ok (w, None) /\
       decode_file d ins (fun x => decoder x ++ extra) = Ok g).
Proof.
  intros Hpar Hc Hr Hw Hs Hfmt Hfits n outputs out Hlen Hb.
  assert (Hcb : c = Struct.Fb -> width = 1).
  { intros ->. unfold width_format in Hfmt.
    destruct (Z.eqb_spec width 1); [assumption|].
    repeat match type of Hfmt with
           | (if ?a =? ?b then _ else _) = _ => destruct (a =? b)
           end; discriminate. }
  assert (Hrep : Forall (fun v => Struct.representable c v = true) (firstn n out)).
  { destruct c; try (apply Hb, Hcb; reflexivity);
      apply Forall_firstn_of, Forall_map, Forall_forall; intros x _;
      apply norm_fits; discriminate. }
  assert (Hout : (n < length out)%nat).
  { unfold out. rewrite length_map. exact Hlen. }
  destruct (decode_run d ins decoder chans samps width rate c Hpar Hc Hr Hw Hs
              Hfmt Hfits Hout Hrep) as (Hrun & Hfile & Hsize).
  eexists. eexists. split; [exact Hrun|].
  cbn [Wave.w_written Wave.payload]. fold n.
  split; [reflexivity|].
  split; [rewrite length_map, length_firstn; unfold n, out, outputs in *; lia|].
  split; [exact Hfile|]. split; [reflexivity|]. split; [exact Hsize|].
  intros extra.
  assert (Hsame : firstn n (map (decode_sample d)
                              (concat (decoder (npz_data ins) ++ extra))) =
                  firstn n out).
  { rewrite concat_app, map_app. fold outputs out.
    rewrite firstn_app. replace (n - length out)%nat with 0%nat by lia.
    now rewrite firstn_O, app_nil_r. }
  destruct (decode_run d ins (fun x => decoder x ++ extra) chans samps width
              rate c Hpar Hc Hr Hw Hs Hfmt Hfits) as (Hrun' & Hfile' & _).
  - cbv beta. rewrite length_map, concat_app, length_app. fold outputs. lia.
  - cbv beta. fold n. rewrite Hsame. exact Hrep.
  - cbv beta in Hrun', Hfile'. fold n in Hrun', Hfile'.
    rewrite Hsame in Hrun', Hfile'. split; assumption.
Qed.

Lemma decode_writes_sample_count_witness :
  exists w g,
    decode Float32 {| npz_data := [[0.5; 0.25; 0; 0]]%float;
                      npz_params := [2; 1; 2; 8000] |} (fun x => x)
      = Ok (w, None) /\
    length (Wave.w_written w) = 2%nat /\
    decode_file Float32 {| npz_data := [[0.5; 0.25; 0; 0]]%float;
                           npz_params := [2; 1; 2; 8000] |} (fun x => x)
      = Ok g /\
    Z.of_nat (length (Wave.payload g)) = 4.
Proof.
  destruct (decode_writes_sample_count Float32
              {| npz_data := [[0.5; 0.25; 0; 0]]%float;
                 npz_params := [2; 1; 2; 8000] |} (fun x => x) 2 1 2 8000
              Struct.Fh)
    as (w & g & Hrun & _ & Hn & Hfile & _ & Hsize & _).
  - reflexivity.
  - lia.
  - lia.
  - lia.
  - lia.
  - reflexivity.
  - reflexivity.
  - simpl. lia.
  - discriminate.
  - exists w, g. repeat split; assumption.
Defined.

(** C2, as the specification words it, fails on a width-1 stream: the file
    of one sample 0 is encoded, the decoder answers 0.875 everywhere, the
    clamped value 24576 does not fit a signed byte, and the loop is left
    with [struct.error] before anything is written, where one value was to
    be written. *)
Lemma width1_decode_writes_nothing :
  let fit := fun (_ : Z) (_ : frames) =>
    {| encoder_predict := fun x => x;
       decoder_predict := map (map (fun _ => 0.875%float)) |} in
  exists ins dec w,
    encode fit (Wave.mk_wav 1 1 8000 [x00]) = Ok (ins, dec) /\
    decode_params ins = Ok (1, 1, 1, 8000) /\
    (forall d : dtype,
       decode d ins dec = Ok (w, Some StructError) /\
       decode_file d ins dec = Err StructError) /\
    length (Wave.w_written w) = 0%nat /\
    Z.to_nat (1 * 1) = 1%nat.
Proof.
  cbv zeta. eexists. eexists.
  exists {| Wave.w_nchannels := Some 1; Wave.w_sampwidth := Some 1;
            Wave.w_framerate := Some 8000; Wave.w_written := [] |}.
  split; [vm_compute; reflexivity|].
  split; [reflexivity|].
  split; [intros d; destruct d; split; vm_compute; reflexivity|].
  split; reflexivity.
Qed.

(** ** The parameters through [encode] and [decode] *)

Lemma width_format_size (w : Z) (c : Struct.format) :
  width_format w = Ok c -> w <> 3 -> Z.of_nat (Struct.size c) = w.
Proof.
  unfold width_format. intros Hc H3.
  repeat match type of Hc with
         | (if ?a =? ?b then _ else _) = _ =>
             destruct (Z.eqb_spec a b) as [E|?]; [subst w|]
         end;
    try (injection Hc as <-; reflexivity); try discriminate; congruence.
Qed.

Lemma plain_width_format (w : Z) :
  In w [1; 2; 4; 8] ->
  exists c, width_format w = Ok c /\ w <> 3 /\ Z.of_nat (Struct.size c) = w.
Proof.
  intros Hin. simpl in Hin.
  destruct Hin as [<- | [<- | [<- | [<- | []]]]]; eexists;
    (split; [reflexivity|]); (split; [discriminate|reflexivity]).
Qed.

(** A file the [wave] module opens, of width 1, 2, 4 or 8 and with the
    frames it announces, is read without exception, into [samps*chans]
    samples. *)
Lemma dataFromWave_ok (f : Wave.wav) (r : Wave.reader) :
  Wave.open_read f = Ok r ->
  In (Wave.r_sampwidth r) [1; 2; 4; 8] ->
  Wave.r_nframes r * Wave.r_nchannels r * Wave.r_sampwidth r
    <= Z.of_nat (length (Wave.payload f)) ->
  exists data,
    dataFromWave f =
      Ok (data, Wave.r_nchannels r, Wave.r_nframes r, Wave.r_sampwidth r,
          Wave.r_framerate r) /\
    length data = Z.to_nat (Wave.r_nframes r * Wave.r_nchannels r).
Proof.
  intros Hopen Hin Hwhole.
  destruct (plain_width_format _ Hin) as (c & Hc & H3 & Hsz).
  eexists. split; [apply (dataFromWave_plain f r Hopen c); assumption|].
  now rewrite length_map, chunk_length.
Qed.

(** C6: for every valid input stream (a file of width 1, 2, 4 or 8 that
    holds the frames it announces) the parameters [decode] recovers from
    the container [encode] produced are the stream's channel count, frame
    count, sample width and sample rate, and these four values are the ones
    [decode] hands to [dataToWave]: a run left without exception has put
    them in the header and has written [samps*chans] values. *)
Theorem params_roundtrip (fit : Z -> frames -> autoencoder) (d : dtype)
  (f : Wave.wav) (r : Wave.reader) :
  Wave.open_read f = Ok r ->
  In (Wave.r_sampwidth r) [1; 2; 4; 8] ->
  Wave.r_nframes r * Wave.r_nchannels r * Wave.r_sampwidth r
    <= Z.of_nat (length (Wave.payload f)) ->
  Z.of_N (Wave.chunksize f) < 2 ^ 32 ->
  100 <= Wave.r_framerate r ->
  let chans := Wave.r_nchannels r in
  let samps := Wave.r_nframes r in
  let width := Wave.r_sampwidth r in
  let samp_rate := Wave.r_framerate r in
  exists ins dec,
    encode fit f = Ok (ins, dec) /\
    npz_params ins = [chans; samps; width; samp_rate] /\
    decode_params ins = Ok (chans, samps, width, samp_rate) /\
    decode d ins dec =
      (out <- decode_out d ins dec ;;
       Ok (dataToWave out chans samps width samp_rate)) /\
    (forall out w,
       decode_out d ins dec = Ok out ->
       dataToWave out chans samps width samp_rate = (w, None) ->
       decode d ins dec = Ok (w, None) /\
       Wave.w_nchannels w = Some chans /\
       Wave.w_sampwidth w = Some width /\
       Wave.w_framerate w = Some samp_rate /\
       length (Wave.w_written w) = Z.to_nat (samps * chans)).
Proof.
  intros Hopen Hin Hwhole Hsize Hrate. cbv zeta.
  destruct (dataFromWave_ok f r Hopen Hin Hwhole) as (data & Hread & _).
  destruct (encode_inputs_spec data (Wave.r_framerate r) Hrate)
    as (inputs & Hin' & _).
  destruct (opened_header f r Hopen) as (Hc & Hw & Hs0 & _ & _ & Hfit).
  assert (H64 : int64_min <= Wave.r_nframes r * Wave.r_nchannels r <= int64_max).
  { change (2 ^ 32) with 4294967296 in Hsize.
    unfold int64_min, int64_max. nia. }
  assert (Hdec : forall ins dec,
             npz_params ins =
               [Wave.r_nchannels r; Wave.r_nframes r; Wave.r_sampwidth r;
                Wave.r_framerate r] ->
             decode d ins dec =
             (out <- decode_out d ins dec ;;
              Ok (dataToWave out (Wave.r_nchannels r) (Wave.r_nframes r)
                    (Wave.r_sampwidth r) (Wave.r_framerate r)))).
  { intros ins dec Hp. unfold decode, decode_params. rewrite Hp.
    cbn [index nth_error bind].
    destruct (decode_out d ins dec) as [out|e]; cbn [bind]; [|reflexivity].
    now rewrite dataToWave_int64. }
  eexists. eexists. split.
  { unfold encode. rewrite Hread. cbn [bind]. rewrite Hin'. cbn [bind].
    reflexivity. }
  cbn [npz_params]. split; [reflexivity|]. split; [reflexivity|].
  split; [apply Hdec; reflexivity|].
  intros out w Hout Hrun. split.
  - rewrite Hdec by reflexivity. rewrite Hout. cbn [bind]. now rewrite Hrun.
  - now apply (dataToWave_success_inv PyInt out).
Qed.

Lemma params_roundtrip_witness :
  exists ins dec,
    encode (fun _ _ => mk_autoencoder (fun x => x) (fun x => x))
      (Wave.mk_wav 2 2 8000 [x01; x02; x03; xff; xff; xff; x00; x80]) =
      Ok (ins, dec) /\
    decode_params ins = Ok (2, 2, 2, 8000).
Proof.
  pose (f := Wave.mk_wav 2 2 8000 [x01; x02; x03; xff; xff; xff; x00; x80]).
  pose (r := Wave.mk_reader 2 2 8000 2 4 (Wave.payload f)).
  destruct (params_roundtrip
              (fun _ _ => mk_autoencoder (fun x => x) (fun x => x)) Float32 f r)
    as (ins & dec & Henc & _ & Hpar & _).
  - reflexivity.
  - right. left. reflexivity.
  - simpl. lia.
  - reflexivity.
  - simpl. lia.
  - exists ins, dec. split; assumption.
Defined.

(** ** The float64 array *)

(** On a float64 array the machine operations compute the same three
    rounded operations as [unscale_SF]. *)
Lemma unscale_float64 (f : float) :
  unscale Float64 f = unscale_SF Float64 (Prim2SF f).
Proof.
  unfold unscale, unscale_SF. cbv zeta.
  now rewrite mul_spec, sub_spec, mul_spec.
Qed.

(** ** Further properties: reading *)

(** X1: how [dataFromWave] ends.  A header without channels or without a
    sample width is refused by [wave.open]; a sample width other than 1, 2,
    3, 4 or 8 stops at the format dictionary with [KeyError]; the width 3
    stops with [TypeError]; a file of width 1, 2, 4 or 8 whose data chunk is
    cut short of the frames announced stops at [struct.unpack]; every other
    file is read, into exactly [samps*chans] samples, with the parameters of
    its header. *)
Theorem dataFromWave_outcome (f : Wave.wav) :
  let chans := Z.of_N (Wave.nchannels f) in
  let width := Z.of_N (Wave.sampwidth f) in
  let samps := Z.of_N (Wave.chunksize f) / (chans * width) in
  (chans = 0 \/ width = 0 -> dataFromWave f = Err WaveError) /\
  (chans <> 0 -> width <> 0 -> ~ In width [1; 2; 3; 4; 8] ->
   dataFromWave f = Err KeyError) /\
  (chans <> 0 -> width = 3 -> dataFromWave f = Err TypeError) /\
  (chans <> 0 -> In width [1; 2; 4; 8] ->
   Z.of_nat (length (Wave.payload f)) < samps * chans * width ->
   dataFromWave f = Err StructError) /\
  (chans <> 0 -> In width [1; 2; 4; 8] ->
   samps * chans * width <= Z.of_nat (length (Wave.payload f)) ->
   exists data,
     dataFromWave f =
       Ok (data, chans, samps, width, Z.of_N (Wave.framerate f)) /\
     Z.of_nat (length data) = samps * chans).
Proof.
  cbv zeta.
  assert (Hopened : Z.of_N (Wave.nchannels f) <> 0 ->
                    Z.of_N (Wave.sampwidth f) <> 0 ->
                    exists r, Wave.open_read f = Ok r).
  { intros Hc Hw. apply open_read_ok; lia. }
  split; [|split; [|split; [|split]]].
  - intros H0. unfold dataFromWave, Wave.open_read.
    destruct (N.eqb_spec (Wave.sampwidth f) 0) as [|Hw]; [reflexivity|].
    destruct (N.eqb_spec (Wave.nchannels f) 0) as [|Hc]; [reflexivity|].
    lia.
  - intros Hc Hw Hin.
    destruct (Hopened Hc Hw) as [r Hopen].
    destruct (open_read_inv _ _ Hopen) as (Hr & _).
    unfold dataFromWave. rewrite Hopen. cbn [bind].
    replace (Wave.r_sampwidth r) with (Z.of_N (Wave.sampwidth f))
      by (rewrite Hr; reflexivity).
    destruct (Z.eqb_spec (Z.of_N (Wave.sampwidth f)) 3) as [E|_].
    { exfalso. apply Hin. rewrite E. simpl. auto. }
    cbn [bind].
    destruct (width_format (Z.of_N (Wave.sampwidth f))) as [c|e] eqn:Hfmt.
    + exfalso. apply Hin. unfold width_format in Hfmt.
      repeat match type of Hfmt with
             | (if ?a =? ?b then _ else _) = _ =>
                 destruct (Z.eqb_spec a b) as [->|?]; [simpl; auto 6|]
             end. discriminate.
    + cbn [bind]. unfold width_format in Hfmt.
      repeat match type of Hfmt with
             | (if ?a =? ?b then _ else _) = _ => destruct (a =? b)
             end; try discriminate. congruence.
  - intros Hc Hw.
    destruct (Hopened Hc ltac:(lia)) as [r Hopen].
    apply (dataFromWave_width3 f r Hopen).
    destruct (open_read_inv _ _ Hopen) as (-> & _). exact Hw.
  - intros Hc Hin Hshort.
    destruct (plain_width_format _ Hin) as (c & Hfmt & H3 & Hsz).
    destruct (Hopened Hc ltac:(lia)) as [r Hopen].
    destruct (open_read_inv _ _ Hopen) as (Hr & _).
    apply (dataFromWave_short f r Hopen c); rewrite Hr;
      cbn [Wave.r_sampwidth Wave.r_nframes Wave.r_nchannels]; assumption.
  - intros Hc Hin Hwhole.
    destruct (Hopened Hc ltac:(simpl in Hin; lia)) as [r Hopen].
    destruct (open_read_inv _ _ Hopen) as (Hr & _).
    destruct (dataFromWave_ok f r Hopen) as (data & Hread & Hlen).
    + rewrite Hr. exact Hin.
    + rewrite Hr. exact Hwhole.
    + destruct (opened_header f r Hopen) as (_ & _ & Hs0 & _).
      rewrite Hr in Hread, Hlen, Hs0.
      cbn [Wave.r_nchannels Wave.r_nframes Wave.r_sampwidth Wave.r_framerate]
        in Hread, Hlen, Hs0.
      exists data. split; [exact Hread|]. rewrite Hlen. nia.
Qed.

Lemma dataFromWave_outcome_witness :
  dataFromWave (Wave.mk_wav 1 5 8000 [x01; x02; x03; x04; x05]) = Err KeyError /\
  dataFromWave (Wave.raw_wav 1 2 8000 4 [x01; x02]) = Err StructError.
Proof.
  split.
  - destruct (dataFromWave_outcome (Wave.mk_wav 1 5 8000 [x01; x02; x03; x04; x05]))
      as (_ & H & _).
    apply H.
    + discriminate.
    + discriminate.
    + simpl. intros [H5|[H5|[H5|[H5|[H5|[]]]]]]; discriminate.
  - destruct (dataFromWave_outcome (Wave.raw_wav 1 2 8000 4 [x01; x02]))
      as (_ & _ & _ & H & _).
    apply H.
    + discriminate.
    + simpl. auto.
    + simpl. lia.
Defined.

(** X2: whenever [dataFromWave] returns, the sample width is 1, 2, 4 or 8
    (never 3), there is at least one channel and no negative frame count,
    and every sample lies in the signed range of the width,
    [-2^(8w-1) <= v < 2^(8w-1)]. *)
Theorem dataFromWave_sample_range (f : Wave.wav) (data : list Z)
  (chans samps width rate : Z) :
  dataFromWave f = Ok (data, chans, samps, width, rate) ->
  In width [1; 2; 4; 8] /\
  1 <= chans /\ 0 <= samps /\
  Forall (fun v => - 2 ^ (8 * width - 1) <= v < 2 ^ (8 * width - 1)) data.
Proof.
  intros Hrun.
  destruct (Wave.open_read f) as [r|e] eqn:Hopen.
  2:{ unfold dataFromWave in Hrun. rewrite Hopen in Hrun. discriminate. }
  destruct (dataFromWave_params _ _ _ _ _ _ _ Hopen Hrun) as (E1 & E2 & E3 & E4).
  destruct (opened_header f r Hopen) as (Hc & _ & Hs0 & _).
  assert (H3 : width <> 3).
  { intros E. rewrite E3 in E.
    rewrite (dataFromWave_width3 f r Hopen E) in Hrun. discriminate. }
  assert (Hfmt : exists c, width_format width = Ok c).
  { unfold dataFromWave in Hrun. rewrite Hopen in Hrun. cbn [bind] in Hrun.
    rewrite <- E3 in Hrun.
    destruct (Z.eqb_spec width 3) as [|_]; [contradiction|].
    cbn [bind] in Hrun.
    destruct (width_format width) as [c|e]; [eauto|discriminate]. }
  destruct Hfmt as [c Hfmt].
  pose proof (width_format_size _ _ Hfmt H3) as Hsz.
  assert (Hin : In width [1; 2; 4; 8]).
  { rewrite <- Hsz. destruct c; simpl; auto. }
  split; [exact Hin|]. split; [lia|]. split; [lia|].
  pose proof (dataFromWave_samples_fit f c _ _ _ _ _ Hrun H3 Hfmt Hsz) as Hrep.
  eapply Forall_impl; [|exact Hrep].
  intros v Hv. apply andb_prop in Hv as [Hlo Hhi].
  apply Z.leb_le in Hlo. apply Z.ltb_lt in Hhi.
  unfold Struct.bits in Hlo, Hhi. rewrite Hsz in Hlo, Hhi. lia.
Qed.

Lemma dataFromWave_sample_range_witness :
  Forall (fun v => - 2 ^ (8 * 2 - 1) <= v < 2 ^ (8 * 2 - 1))
    [513; -1; -32768; 32767].
Proof.
  apply (dataFromWave_sample_range
           (Wave.mk_wav 2 2 8000
              [x01; x02; xff; xff; x00; x80; xff; x7f])
           [513; -1; -32768; 32767] 2 2 2 8000).
  reflexivity.
Defined.

(** ** Further properties: the writing loop *)

(** The writer accepts the header when there is at least one channel, a
    width from 1 to 4 and a positive rate; every such width has a format. *)
Lemma accepted_width_format (width : Z) :
  1 <= width <= 4 -> exists c, width_format width = Ok c.
Proof.
  intros Hw.
  assert (Hcase : width = 1 \/ width = 2 \/ width = 3 \/ width = 4) by lia.
  destruct Hcase as [-> | [-> | [-> | ->]]]; eexists; reflexivity.
Qed.



(** X4: the header comes first.  With no channel, a sample width outside
    1..4 (so also the width 8 of the format dictionary) or no positive
    rate, [dataToWave] is left with the [wave] module's error before
    anything is written; and since only the widths 1 to 4 get past the
    header, it is never left with [KeyError]. *)
Theorem dataToWave_header_first (data : list Z) (chans samps width rate : Z) :
  (chans < 1 \/ width < 1 \/ 4 < width \/ rate < 1 ->
   snd (dataToWave data chans samps width rate) = Some WaveError /\
   Wave.w_written (fst (dataToWave data chans samps width rate)) = []) /\
  snd (dataToWave data chans samps width rate) <> Some KeyError.
Proof.
  unfold dataToWave. split.
  - intros Hbad. unfold dataToWave_as, Wave.setnchannels.
    destruct (Z.ltb_spec chans 1); [split; reflexivity|].
    unfold Wave.setsampwidth.
    destruct (Z.ltb_spec width 1); [split; reflexivity|].
    destruct (Z.ltb_spec 4 width); [split; reflexivity|].
    cbn [orb]. unfold Wave.setframerate.
    destruct (Z.leb_spec rate 0); [split; reflexivity|]. lia.
  - destruct (Z.lt_ge_cases chans 1) as [Hc|Hc].
    { unfold dataToWave_as, Wave.setnchannels.
      destruct (Z.ltb_spec chans 1); [discriminate|lia]. }
    destruct (Z.lt_ge_cases rate 1) as [Hr|Hr].
    { unfold dataToWave_as, Wave.setnchannels, Wave.setsampwidth,
        Wave.setframerate.
      destruct (Z.ltb_spec chans 1); [discriminate|].
      destruct ((width <? 1) || (4 <? width)); [discriminate|].
      destruct (Z.leb_spec rate 0); [discriminate|lia]. }
    destruct (Z.lt_ge_cases width 1) as [Hw1|Hw1].
    { unfold dataToWave_as, Wave.setnchannels, Wave.setsampwidth.
      destruct (Z.ltb_spec chans 1); [discriminate|].
      destruct (Z.ltb_spec width 1); [discriminate|lia]. }
    destruct (Z.lt_ge_cases 4 width) as [Hw4|Hw4].
    { unfold dataToWave_as, Wave.setnchannels, Wave.setsampwidth.
      destruct (Z.ltb_spec chans 1); [discriminate|].
      destruct (Z.ltb_spec width 1); [discriminate|].
      destruct (Z.ltb_spec 4 width); [discriminate|lia]. }
    destruct (accepted_width_format width ltac:(lia)) as [c Hfmt].
    rewrite (dataToWave_as_unfold PyInt _ _ _ _ _ c) by (assumption || lia).
    intros Hkey. apply write_loop_errors in Hkey.
    destruct Hkey as [E | [E | E]]; discriminate.
Qed.

Lemma dataToWave_header_first_witness :
  snd (dataToWave [1; 2] 1 2 8 8000) = Some WaveError /\
  Wave.w_written (fst (dataToWave [1; 2] 1 2 8 8000)) = [].
Proof.
  apply (dataToWave_header_first [1; 2] 1 2 8 8000). right. right. left. lia.
Defined.

(** ** Further properties: reading and writing back *)

Lemma byte_of_Z_val (b : byte) (z : Z) :
  z mod 256 = Struct.byte_val b -> Struct.byte_of_Z z = b.
Proof.
  intros Hz. unfold Struct.byte_of_Z. rewrite Hz. unfold Struct.byte_val.
  now rewrite N2Z.id, Byte.of_to_N.
Qed.

Lemma le_bytes_le_unsigned (bs : list byte) :
  Struct.le_bytes (length bs) (Struct.le_unsigned bs) = bs.
Proof.
  induction bs as [|b t IH]; [reflexivity|].
  cbn [length Struct.le_bytes Struct.le_unsigned].
  pose proof (byte_val_range b) as Hb.
  f_equal.
  - apply byte_of_Z_val.
    rewrite (Z.mul_comm 256), Z.mod_add by lia. apply Z.mod_small. lia.
  - rewrite (Z.mul_comm 256), Z.div_add by lia.
    rewrite Z.div_small by lia. exact IH.
Qed.

(** Unpacking a word of the format's size and packing the value gives the
    word back. *)
Lemma packed_unpack_one (c : Struct.format) (bs : list byte) :
  length bs = Struct.size c ->
  Struct.packed c (Struct.unpack_one c bs) = bs.
Proof.
  intros Hlen. pose proof (le_unsigned_range bs) as Hu. rewrite Hlen in Hu.
  replace (256 ^ Z.of_nat (Struct.size c)) with (2 ^ Struct.bits c) in Hu
    by (destruct c; reflexivity).
  unfold Struct.packed, Struct.unpack_one, Struct.to_signed.
  assert (Hpos : 0 < 2 ^ Struct.bits c) by (destruct c; reflexivity).
  replace ((if Struct.le_unsigned bs <? 2 ^ (Struct.bits c - 1)
            then Struct.le_unsigned bs
            else Struct.le_unsigned bs - 2 ^ Struct.bits c) mod 2 ^ Struct.bits c)
    with (Struct.le_unsigned bs).
  - rewrite <- Hlen. apply le_bytes_le_unsigned.
  - destruct (Struct.le_unsigned bs <? 2 ^ (Struct.bits c - 1)).
    + symmetry. apply Z.mod_small. lia.
    + apply Z.mod_unique with (-1); lia.
Qed.

Lemma length_w_data_packed (c : Struct.format) (vs : list Z) :
  length (concat (map (Struct.packed c) vs)) = (length vs * Struct.size c)%nat.
Proof.
  rewrite (length_concat_uniform (Struct.size c)), length_map; [reflexivity|].
  apply Forall_map, Forall_forall. intros v _. apply length_packed.
Qed.

(** Reading a file of width 1, 2 or 4 that holds the frames it announces
    and writing the samples back: the samples fit the format, there are
    [samps*chans] of them, and the file written has the header values of the
    file read and the bytes of the frames that were read. *)
Lemma reread_rewrite_file (f : Wave.wav) (r : Wave.reader)
  (c : Struct.format) :
  Wave.open_read f = Ok r ->
  Wave.r_sampwidth r <> 3 -> Wave.r_sampwidth r <= 4 ->
  width_format (Wave.r_sampwidth r) = Ok c ->
  1 <= Wave.r_framerate r ->
  let size := Wave.r_nframes r * Wave.r_nchannels r * Wave.r_sampwidth r in
  size <= Z.of_nat (length (Wave.payload f)) ->
  header_fits (Wave.r_nchannels r) (Wave.r_sampwidth r) (Wave.r_framerate r)
    size = true ->
  exists data,
    dataFromWave f =
      Ok (data, Wave.r_nchannels r, Wave.r_nframes r, Wave.r_sampwidth r,
          Wave.r_framerate r) /\
    Forall (fun v => Struct.representable c v = true) data /\
    length data = Z.to_nat (Wave.r_nframes r * Wave.r_nchannels r) /\
    dataToWave data (Wave.r_nchannels r) (Wave.r_nframes r)
      (Wave.r_sampwidth r) (Wave.r_framerate r) =
      ({| Wave.w_nchannels := Some (Wave.r_nchannels r);
          Wave.w_sampwidth := Some (Wave.r_sampwidth r);
          Wave.w_framerate := Some (Wave.r_framerate r);
          Wave.w_written := map (Struct.packed c) data |}, None) /\
    dataToWave_file data (Wave.r_nchannels r) (Wave.r_nframes r)
      (Wave.r_sampwidth r) (Wave.r_framerate r) =
      Ok {| Wave.nchannels := Wave.nchannels f;
            Wave.sampwidth := Wave.sampwidth f;
            Wave.framerate := Wave.framerate f;
            Wave.chunksize := Z.to_N size;
            Wave.payload := firstn (Z.to_nat size) (Wave.payload f) |}.
Proof.
  intros Hopen Hn3 Hw4 Hfmt Hrate size Hwhole Hfits.
  pose proof (width_format_size _ _ Hfmt Hn3) as Hsz.
  destruct (opened_header f r Hopen) as (Hc & Hw & Hs0 & Hfs & Hrest & Hfit).
  destruct (open_read_inv _ _ Hopen) as (Hr & _ & _).
  set (n := Z.to_nat (Wave.r_nframes r * Wave.r_nchannels r)).
  set (ws := Struct.chunk (Struct.size c) n (Wave.payload f)).
  assert (Hfull : Forall (fun p => length p = Struct.size c) ws).
  { apply chunk_all_full. unfold n, size in *. nia. }
  assert (Hcat : concat ws = firstn (Z.to_nat size) (Wave.payload f)).
  { unfold ws. rewrite concat_chunk. f_equal. unfold n, size. nia. }
  assert (Hn : length ws = n) by (unfold ws; apply chunk_length).
  assert (Hrep : Forall (fun v => Struct.representable c v = true)
                   (map (Struct.unpack_one c) ws)).
  { apply Forall_map. eapply Forall_impl; [|exact Hfull].
    intros bs Hbs. now apply unpack_one_representable. }
  assert (Hfits0 : header_fits (Wave.r_nchannels r) (Wave.r_sampwidth r)
                     (Wave.r_framerate r) 0 = true).
  { rewrite header_fits_datasize in Hfits. now apply andb_prop in Hfits. }
  assert (Hback : map (Struct.packed c) (map (Struct.unpack_one c) ws) = ws).
  { rewrite map_map. rewrite <- (map_id ws) at 2. apply map_ext_in.
    intros bs Hbs. apply packed_unpack_one.
    exact (proj1 (Forall_forall _ _) Hfull bs Hbs). }
  assert (Hrun : dataToWave (map (Struct.unpack_one c) ws)
                   (Wave.r_nchannels r) (Wave.r_nframes r)
                   (Wave.r_sampwidth r) (Wave.r_framerate r) =
                 ({| Wave.w_nchannels := Some (Wave.r_nchannels r);
                     Wave.w_sampwidth := Some (Wave.r_sampwidth r);
                     Wave.w_framerate := Some (Wave.r_framerate r);
                     Wave.w_written :=
                       map (Struct.packed c) (map (Struct.unpack_one c) ws) |},
                  None)).
  { rewrite (dataToWave_ok _ _ _ _ _ c); try assumption; try lia; fold n.
    - now rewrite <- Hn, <- (length_map (Struct.unpack_one c) ws), firstn_all.
    - rewrite length_map. lia.
    - now apply Forall_firstn_of. }
  exists (map (Struct.unpack_one c) ws). split.
  { apply (dataFromWave_plain f r Hopen c); assumption. }
  split; [exact Hrep|]. split; [now rewrite length_map|].
  split; [exact Hrun|].
  unfold dataToWave_file. rewrite Hrun. cbn [finish]. rewrite Hback.
  assert (Hlen : Z.of_nat (length (concat ws)) = size).
  { rewrite Hcat, length_firstn. unfold size in *. lia. }
  rewrite close_ok; [|lia|lia|now rewrite Hlen].
  rewrite <- (N2Z.id (N.of_nat _)), nat_N_Z, Hlen, Hcat.
  rewrite Hr. cbn [Wave.r_nchannels Wave.r_sampwidth Wave.r_framerate].
  now rewrite !N2Z.id.
Qed.

(** X5: reading a file of width 1, 2 or 4 that holds the frames it
    announces and writing the samples back with the parameters read gives a
    file with the same channel count, sample width and frame rate, whose data
    chunk is the bytes of the frames that were read: the whole data chunk of
    the file read when that chunk is a whole number of frames present in
    the file. *)
Theorem read_then_write_same_file (f : Wave.wav) (r : Wave.reader)
  (c : Struct.format) :
  Wave.open_read f = Ok r ->
  Wave.r_sampwidth r <> 3 -> Wave.r_sampwidth r <= 4 ->
  width_format (Wave.r_sampwidth r) = Ok c ->
  1 <= Wave.r_framerate r ->
  let size := Wave.r_nframes r * Wave.r_nchannels r * Wave.r_sampwidth r in
  size <= Z.of_nat (length (Wave.payload f)) ->
  header_fits (Wave.r_nchannels r) (Wave.r_sampwidth r) (Wave.r_framerate r)
    size = true ->
  exists data g,
    dataFromWave f =
      Ok (data, Wave.r_nchannels r, Wave.r_nframes r, Wave.r_sampwidth r,
          Wave.r_framerate r) /\
    dataToWave_file data (Wave.r_nchannels r) (Wave.r_nframes r)
      (Wave.r_sampwidth r) (Wave.r_framerate r) = Ok g /\
    Wave.nchannels g = Wave.nchannels f /\
    Wave.sampwidth g = Wave.sampwidth f /\
    Wave.framerate g = Wave.framerate f /\
    Wave.chunksize g = Z.to_N size /\
    Wave.payload g = firstn (Z.to_nat size) (Wave.payload f) /\
    (Wave.chunksize f = N.of_nat (length (Wave.payload f)) ->
     Z.of_N (Wave.chunksize f) mod Wave.r_framesize r = 0 ->
     Wave.chunksize g = Wave.chunksize f /\
     Wave.payload g = Wave.payload f).
Proof.
  intros Hopen Hn3 Hw4 Hfmt Hrate size Hwhole Hfits.
  destruct (reread_rewrite_file f r c Hopen Hn3 Hw4 Hfmt Hrate Hwhole Hfits)
    as (data & Hread & _ & _ & _ & Hfile).
  exists data. eexists. split; [exact Hread|]. split; [exact Hfile|].
  cbn [Wave.nchannels Wave.sampwidth Wave.framerate Wave.chunksize
         Wave.payload].
  do 5 (split; [reflexivity|]).
  intros Hdecl Hmod.
  destruct (opened_header f r Hopen) as (Hc & Hw & _ & Hfs & _).
  destruct (open_read_inv _ _ Hopen) as (Hr & _).
  rewrite Hfs in Hmod. apply Z.div_exact in Hmod; [|nia].
  assert (Hsize : size = Z.of_N (Wave.chunksize f)).
  { unfold size. rewrite Hr in Hmod |- *.
    cbn [Wave.r_nframes Wave.r_nchannels Wave.r_sampwidth] in Hmod |- *.
    nia. }
  unfold size in Hsize. rewrite Hsize, N2Z.id. split; [reflexivity|].
  rewrite Hdecl, nat_N_Z, Nat2Z.id. apply firstn_all.
Qed.

Lemma read_then_write_same_file_witness :
  exists data g,
    dataFromWave (Wave.mk_wav 2 2 8000 [x01; x02; x03; xff; xff; xff; x00; x80])
      = Ok (data, 2, 2, 2, 8000) /\
    dataToWave_file data 2 2 2 8000 = Ok g /\
    Wave.payload g = [x01; x02; x03; xff; xff; xff; x00; x80].
Proof.
  pose (f := Wave.mk_wav 2 2 8000 [x01; x02; x03; xff; xff; xff; x00; x80]).
  pose (r := Wave.mk_reader 2 2 8000 2 4 (Wave.payload f)).
  destruct (read_then_write_same_file f r Struct.Fh)
    as (data & g & Hread & Hfile & _ & _ & _ & _ & _ & Hsame).
  - reflexivity.
  - discriminate.
  - discriminate.
  - reflexivity.
  - simpl. lia.
  - simpl. lia.
  - reflexivity.
  - exists data, g. split; [exact Hread|]. split; [exact Hfile|].
    apply Hsame; reflexivity.
Defined.

(** X6: writing [samps*chans] values that fit the format of a width 1, 2
    or 4 and reading the file back gives the values and the parameters
    that were written. *)
Theorem write_then_read_same_samples (data : list Z)
  (chans samps width rate : Z) (c : Struct.format) :
  1 <= chans -> 0 <= samps -> 1 <= rate ->
  width <> 3 -> width <= 4 ->
  width_format width = Ok c ->
  let n := Z.to_nat (samps * chans) in
  (n <= length data)%nat ->
  Forall (fun v => Struct.representable c v = true) (firstn n data) ->
  header_fits chans width rate (samps * chans * width) = true ->
  exists f,
    dataToWave_file data chans samps width rate = Ok f /\
    dataFromWave f = Ok (firstn n data, chans, samps, width, rate).
Proof.
  intros Hc Hs Hr Hn3 Hw4 Hfmt n Hn Hrep Hfits.
  pose proof (width_format_size _ _ Hfmt Hn3) as Hsz.
  assert (Hw1 : 1 <= width) by (rewrite <- Hsz; destruct c; simpl; lia).
  assert (Hfits0 : header_fits chans width rate 0 = true).
  { rewrite header_fits_datasize in Hfits. now apply andb_prop in Hfits. }
  set (ws := map (Struct.packed c) (firstn n data)).
  assert (Hfull : Forall (fun p => length p = Struct.size c) ws).
  { apply Forall_map, Forall_forall. intros v _. apply length_packed. }
  assert (Hlen : length ws = n).
  { unfold ws. rewrite length_map, length_firstn. lia. }
  assert (Hsize : Z.of_nat (length (concat ws)) = samps * chans * width).
  { rewrite (length_concat_uniform _ _ Hfull), Hlen. unfold n. nia. }
  unfold dataToWave_file.
  rewrite (dataToWave_ok _ _ _ _ _ c); try assumption; try lia. fold n ws.
  cbn [finish]. rewrite close_ok; [|lia|lia|now rewrite Hsize].
  eexists. split; [reflexivity|].
  match goal with |- dataFromWave ?f = _ => set (file := f) end.
  assert (Hopen : Wave.open_read file =
    Ok {| Wave.r_nchannels := chans; Wave.r_sampwidth := width;
          Wave.r_framerate := rate; Wave.r_nframes := samps;
          Wave.r_framesize := chans * width; Wave.r_rest := concat ws |}).
  { unfold Wave.open_read, file.
    cbn [Wave.nchannels Wave.sampwidth Wave.framerate Wave.payload
           Wave.chunksize].
    destruct (N.eqb_spec (Z.to_N width) 0) as [E|_]; [lia|].
    destruct (N.eqb_spec (Z.to_N chans) 0) as [E|_]; [lia|].
    rewrite !Z2N.id by lia. rewrite nat_N_Z, Nnat.Nat2N.id, firstn_all, Hsize.
    do 2 f_equal.
    replace (samps * chans * width) with (samps * (chans * width)) by lia.
    apply Z.div_mul. nia. }
  pose proof (dataFromWave_plain file _ Hopen c) as Hplain.
  cbn [Wave.r_nchannels Wave.r_sampwidth Wave.r_framerate Wave.r_nframes]
    in Hplain.
  rewrite (Hplain Hn3 Hfmt Hsz)
    by (unfold file; cbn [Wave.payload]; rewrite Hsize; lia).
  fold n. unfold file. cbn [Wave.payload].
  assert (Hchunk : Struct.chunk (Struct.size c) n (concat ws) = ws)
    by (rewrite <- Hlen; apply chunk_concat; exact Hfull).
  rewrite Hchunk. unfold ws. rewrite map_map. do 5 f_equal.
  rewrite <- (map_id (firstn n data)) at 2.
  apply map_ext_in. intros v Hv. apply unpack_one_packed.
  exact (proj1 (Forall_forall _ _) Hrep v Hv).
Qed.

Lemma write_then_read_same_samples_witness :
  exists f,
    dataToWave_file [513; -1; 7; 9] 1 3 2 8000 = Ok f /\
    dataFromWave f = Ok ([513; -1; 7], 1, 3, 2, 8000).
Proof.
  apply (write_then_read_same_samples [513; -1; 7; 9] 1 3 2 8000 Struct.Fh).
  - lia.
  - lia.
  - lia.
  - discriminate.
  - lia.
  - reflexivity.
  - apply Nat.leb_le. reflexivity.
  - repeat constructor.
  - reflexivity.
Defined.

(** X7: the file [dataToWave] leaves for a width-3 stream declares the
    width 3 but holds 4 bytes per sample, so its header announces
    [4*samps/3] frames instead of [samps], more than were written as soon
    as there are 3 of them; and [dataFromWave] cannot read it. *)
Theorem width3_output_announces_more_frames (data : list Z)
  (chans samps rate : Z) :
  1 <= chans -> 0 <= samps -> 1 <= rate ->
  let n := Z.to_nat (samps * chans) in
  (n <= length data)%nat ->
  Forall (fun v => Struct.representable Struct.Fi v = true) (firstn n data) ->
  header_fits chans 3 rate (4 * (samps * chans)) = true ->
  exists g r,
    dataToWave_file data chans samps 3 rate = Ok g /\
    Wave.open_read g = Ok r /\
    Wave.r_nchannels r = chans /\
    Wave.r_sampwidth r = 3 /\
    Wave.r_nframes r = 4 * samps / 3 /\
    (3 <= samps -> samps < Wave.r_nframes r) /\
    dataFromWave g = Err TypeError.
Proof.
  intros Hc Hs Hr n Hn Hrep Hfits.
  assert (Hfits0 : header_fits chans 3 rate 0 = true).
  { rewrite header_fits_datasize in Hfits. now apply andb_prop in Hfits. }
  set (ws := map (Struct.packed Struct.Fi) (firstn n data)).
  assert (Hsize : Z.of_nat (length (concat ws)) = 4 * (samps * chans)).
  { unfold ws. rewrite length_w_data_packed, length_firstn. unfold n.
    simpl Struct.size. nia. }
  unfold dataToWave_file.
  rewrite (dataToWave_ok _ _ _ _ _ Struct.Fi); try assumption; try lia;
    [|reflexivity]. fold n ws.
  cbn [finish]. rewrite close_ok; [|lia|lia|now rewrite Hsize].
  match goal with |- context [Ok ?f = Ok _] => set (file := f) end.
  assert (Hframes : 4 * (samps * chans) / (chans * 3) = 4 * samps / 3).
  { replace (4 * (samps * chans)) with (4 * samps * chans) by lia.
    replace (chans * 3) with (3 * chans) by lia.
    apply Z.div_mul_cancel_r; lia. }
  assert (Hopen : Wave.open_read file =
    Ok {| Wave.r_nchannels := chans; Wave.r_sampwidth := 3;
          Wave.r_framerate := rate; Wave.r_nframes := 4 * samps / 3;
          Wave.r_framesize := chans * 3; Wave.r_rest := concat ws |}).
  { unfold Wave.open_read, file.
    cbn [Wave.nchannels Wave.sampwidth Wave.framerate Wave.payload
           Wave.chunksize].
    destruct (N.eqb_spec (Z.to_N 3) 0) as [E|_]; [discriminate|].
    destruct (N.eqb_spec (Z.to_N chans) 0) as [E|_]; [lia|].
    rewrite !Z2N.id by lia. rewrite nat_N_Z, Nnat.Nat2N.id, firstn_all.
    now rewrite Hsize, Hframes. }
  exists file. eexists. split; [reflexivity|]. split; [exact Hopen|].
  cbn [Wave.r_nchannels Wave.r_sampwidth Wave.r_nframes].
  split; [reflexivity|]. split; [reflexivity|]. split; [reflexivity|].
  split.
  - intros H3.
    assert (samps + 1 <= 4 * samps / 3)
      by (apply Z.div_le_lower_bound; lia). lia.
  - now apply (dataFromWave_width3 file _ Hopen).
Qed.

Lemma width3_output_announces_more_frames_witness :
  exists g r,
    dataToWave_file [1; 2; 3] 1 3 3 8000 = Ok g /\
    Wave.open_read g = Ok r /\
    Wave.r_nframes r = 4 /\
    dataFromWave g = Err TypeError.
Proof.
  destruct (width3_output_announces_more_frames [1; 2; 3] 1 3 8000)
    as (g & r & Hw & Hopen & _ & _ & Hframes & _ & Hread).
  - lia.
  - lia.
  - lia.
  - apply Nat.leb_le. reflexivity.
  - repeat constructor.
  - reflexivity.
  - exists g, r. repeat split; assumption.
Defined.

(** ** Further properties: the clamp and the decoded samples *)

(** X8: [norm] is the clamp to the 16-bit range: it is idempotent, it keeps
    the order of its arguments, and the values it leaves unchanged are
    exactly those from -32768 to 32767. *)
Theorem norm_clamp_laws :
  (forall x, norm x = Z.max (-32768) (Z.min 32767 x)) /\
  (forall x, norm (norm x) = norm x) /\
  (forall x y, x <= y -> norm x <= norm y) /\
  (forall x, norm x = x <-> -32768 <= x <= 32767).
Proof.
  assert (Hclamp : forall x, norm x = Z.max (-32768) (Z.min 32767 x)).
  { intros x. unfold norm.
    destruct (Z.ltb_spec x (-32768)); [lia|].
    destruct (Z.ltb_spec 32767 x); lia. }
  split; [exact Hclamp|]. split; [|split].
  - intros x. rewrite !Hclamp. lia.
  - intros x y Hxy. rewrite !Hclamp. lia.
  - intros x. rewrite Hclamp. lia.
Qed.

Lemma norm_clamp_laws_witness :
  norm (norm 40000) = norm 40000 /\ norm (-70000) <= norm 5.
Proof.
  destruct norm_clamp_laws as (_ & Hidem & Hmono & _).
  split; [apply Hidem|apply Hmono; lia].
Defined.

(** X9: whatever floats the decoder returns (NaN and the infinities
    included), the samples [decode] hands to [dataToWave] are as many as the
    decoded floats and all lie between -32768 and 32767; the only failure
    of this step is [np.concatenate] on a decoder output without rows. *)
Theorem decode_out_in_int16 (d : dtype) (ins : npz)
  (decoder : frames -> frames) :
  (decoder (npz_data ins) = [] ->
   decode_out d ins decoder = Err ValueError) /\
  (decoder (npz_data ins) <> [] ->
   exists out,
     decode_out d ins decoder = Ok out /\
     length out = length (concat (decoder (npz_data ins))) /\
     Forall in_int16 out).
Proof.
  split.
  - intros E. unfold decode_out. now rewrite E.
  - intros Hne. eexists. split; [apply decode_out_spec; exact Hne|].
    split; [apply length_map|].
    apply Forall_map, Forall_forall. intros x _. apply norm_range.
Qed.

Lemma decode_out_in_int16_witness :
  exists out,
    decode_out Float32
      {| npz_data := [[nan; infinity]; [2; -1]]%float; npz_params := [] |}
      (fun x => x) = Ok out /\
    length out = 4%nat /\ Forall in_int16 out.
Proof.
  destruct (decode_out_in_int16 Float32
              {| npz_data := [[nan; infinity]; [2; -1]]%float;
                 npz_params := [] |} (fun x => x)) as [_ H].
  apply H. discriminate.
Defined.

(** X10: on samples of the 16-bit range the rescaling of [encode] loses
    nothing: the inverse of [decode] gives back every sample exactly, on a
    float64 as on a float32 array, so two different samples never get the
    same float. *)
Theorem rescale_is_exact_on_int16 (d : dtype) (data : list Z) :
  Forall in_int16 data ->
  map (decode_sample d) (rescale data) = data /\
  (forall s t, In s data -> In t data -> normalize s = normalize t -> s = t).
Proof.
  intros H16. split.
  - rewrite rescale_map, map_map. rewrite <- (map_id data) at 2.
    apply map_ext_in. intros s Hs.
    pose proof (proj1 (Forall_forall _ _) H16 s Hs) as Hs16.
    unfold decode_sample. now rewrite roundtrip_exact, norm_id.
  - intros s t Hs Ht E.
    pose proof (proj1 (Forall_forall _ _) H16 s Hs) as Hs16.
    pose proof (proj1 (Forall_forall _ _) H16 t Ht) as Ht16.
    rewrite <- (roundtrip_exact d s Hs16), <- (roundtrip_exact d t Ht16).
    now rewrite E.
Qed.

Lemma rescale_is_exact_on_int16_witness :
  map (decode_sample Float32) (rescale [-32768; -1; 0; 12345; 32767])
    = [-32768; -1; 0; 12345; 32767].
Proof.
  apply (rescale_is_exact_on_int16 Float32 [-32768; -1; 0; 12345; 32767]).
  repeat constructor; unfold in_int16; lia.
Defined.

(** ** Further properties: the frames *)

(** X11: the frames keep the samples in their order.  With [q = n / L]
    whole frames in the input, the first [q] frames are the consecutive
    pieces of [L] elements of the input, and the last frame holds the
    [n mod L] elements that remain followed by [L - n mod L] zeros; an empty
    input gives the single frame of [L] zeros. *)
Theorem padAndSplit_frame_contents {A : Type} (zero : A) (data : list A)
  (L : Z) :
  1 <= L ->
  let n := Z.of_nat (length data) in
  let q := Z.to_nat (n / L) in
  let rest := skipn (q * Z.to_nat L) data in
  padAndSplit zero data L =
    Ok (Struct.chunk (Z.to_nat L) q data
          ++ [rest ++ repeat zero (Z.to_nat (L - n mod L))]) /\
  Z.of_nat (length rest) = n mod L /\
  (forall i, (i < q)%nat ->
     nth_error (Struct.chunk (Z.to_nat L) q data) i =
       Some (firstn (Z.to_nat L) (skipn (i * Z.to_nat L) data))) /\
  (data = [] -> padAndSplit zero data L = Ok [repeat zero (Z.to_nat L)]).
Proof.
  intros HL n q rest.
  destruct (padded_size n L HL ltac:(lia)) as (Hp & Hpad & Hq).
  pose proof (Z.div_mod n L ltac:(lia)) as Hdm.
  pose proof (Z.mod_pos_bound n L ltac:(lia)) as Hm.
  assert (HqL : (q * Z.to_nat L <= length data)%nat) by (unfold q; nia).
  assert (Hrest : Z.of_nat (length rest) = n mod L).
  { unfold rest. rewrite length_skipn. unfold q. nia. }
  assert (Hmain : padAndSplit zero data L =
    Ok (Struct.chunk (Z.to_nat L) q data
          ++ [rest ++ repeat zero (Z.to_nat (L - n mod L))])).
  { rewrite padAndSplit_spec by exact HL. fold n. f_equal.
    replace (Z.to_nat (n / L + 1)) with (q + 1)%nat by (unfold q; lia).
    rewrite chunk_app. f_equal.
    - rewrite <- (chunk_firstn _ _ (length data)) by exact HqL.
      now rewrite firstn_app, Nat.sub_diag, firstn_all, firstn_O, app_nil_r.
    - cbn [Struct.chunk]. f_equal.
      rewrite skipn_app.
      replace (q * Z.to_nat L - length data)%nat with 0%nat by lia.
      rewrite skipn_O. fold rest. apply firstn_all2.
      rewrite length_app, repeat_length. lia. }
  split; [exact Hmain|]. split; [exact Hrest|]. split.
  - intros i Hi. rewrite chunk_as_map, nth_error_map.
    rewrite nth_error_seq. destruct (Nat.ltb_spec i q) as [_|]; [|lia].
    reflexivity.
  - intros E. rewrite Hmain. unfold rest, q, n. subst data. cbn [length].
    change (Z.of_nat 0) with 0. rewrite Z.div_0_l, Z.mod_0_l by lia.
    cbn [Z.to_nat Struct.chunk app Nat.mul skipn]. now rewrite Z.sub_0_r.
Qed.

Lemma padAndSplit_frame_contents_witness :
  padAndSplit 0 [1; 2; 3; 4; 5] 2 = Ok [[1; 2]; [3; 4]; [5; 0]].
Proof.
  destruct (padAndSplit_frame_contents 0 [1; 2; 3; 4; 5] 2) as (H & _).
  - lia.
  - exact H.
Defined.

(** ** Further properties: [encode] and [decode] together *)

(** X12: how [encode] ends once the file is read.  A sample rate below 100
    makes the frame length 0 and stops [encode] with a division by zero
    before anything is built; from 100 on, [encode] does not fail, hands
    [n / rate + 1] frames of [rate] floats to the network, and saves the
    encoder's answer with the four parameters and the decoder half of the
    same network.  A file that cannot be read stops [encode] with the
    reader's exception. *)
Theorem encode_outcome (fit : Z -> frames -> autoencoder) (f : Wave.wav) :
  (forall e, dataFromWave f = Err e -> encode fit f = Err e) /\
  (forall data chans samps width samp_rate,
     dataFromWave f = Ok (data, chans, samps, width, samp_rate) ->
     (samp_rate < 100 -> encode fit f = Err ZeroDivisionError) /\
     (100 <= samp_rate ->
      let rate := samp_rate / 100 in
      exists inputs,
        encode_inputs data samp_rate = Ok inputs /\
        Z.of_nat (length inputs) = Z.of_nat (length data) / rate + 1 /\
        Forall (fun fr => Z.of_nat (length fr) = rate) inputs /\
        encode fit f =
          Ok ({| npz_data := encoder_predict (fit rate inputs) inputs;
                 npz_params := [chans; samps; width; samp_rate] |},
              decoder_predict (fit rate inputs)))).
Proof.
  split.
  - intros e He. unfold encode. now rewrite He.
  - intros data chans samps width samp_rate Hread. split.
    + intros Hlow.
      assert (H0 : 0 <= samp_rate).
      { destruct (Wave.open_read f) as [r|e] eqn:Hopen.
        - destruct (dataFromWave_params _ _ _ _ _ _ _ Hopen Hread)
            as (_ & _ & _ & ->).
          destruct (open_read_inv _ _ Hopen) as (-> & _). cbn. lia.
        - unfold dataFromWave in Hread. rewrite Hopen in Hread. discriminate. }
      unfold encode. rewrite Hread. cbn [bind].
      unfold encode_inputs, padAndSplit.
      rewrite Z.div_small by lia. reflexivity.
    + intros Hrate rate.
      pose proof (frame_rate_positive _ Hrate) as Hr1.
      destruct (encode_inputs_spec data samp_rate Hrate) as (inputs & Hin & Hcat).
      exists inputs. split; [exact Hin|].
      assert (Hshape : Z.of_nat (length inputs) = Z.of_nat (length data) / rate + 1
                       /\ Forall (fun fr => Z.of_nat (length fr) = rate) inputs).
      { unfold encode_inputs in Hin. rewrite rescale_map in Hin. fold rate in Hin.
        rewrite padAndSplit_spec in Hin by exact Hr1.
        injection Hin as <-. rewrite length_map.
        destruct (padded_size (Z.of_nat (length data)) rate Hr1 ltac:(lia))
          as (Hp & Hpad & Hq).
        split; [rewrite chunk_length; lia|].
        eapply Forall_impl; [|apply chunk_all_full].
        - intros fr Hfr. cbv beta in Hfr. lia.
        - rewrite length_app, length_map, repeat_length. nia. }
      destruct Hshape as [Hcount Hfull].
      split; [exact Hcount|]. split; [exact Hfull|].
      unfold encode. rewrite Hread. cbn [bind]. rewrite Hin. reflexivity.
Qed.

Lemma encode_outcome_witness :
  encode (fun _ _ => mk_autoencoder (fun x => x) (fun x => x))
    (Wave.mk_wav 1 2 99 [x01; x02]) = Err ZeroDivisionError.
Proof.
  destruct (encode_outcome
              (fun _ _ => mk_autoencoder (fun x => x) (fun x => x))
              (Wave.mk_wav 1 2 99 [x01; x02])) as [_ H].
  destruct (H [513] 1 1 2 99 eq_refl) as [Hlow _].
  apply Hlow. lia.
Defined.

(** X13: for a file of width 2 or 4 that holds the frames it announces,
    at a rate of at least 100 and with a header the writer can store, the
    pair [encode], [decode] runs to its end whatever values the network
    computes, as long as the decoder returns as many floats as the encoder
    was given: the file written has the channel count, sample width and
    frame rate of the input and exactly [samps*chans] samples, each the
    packing of a value between -32768 and 32767. *)
Theorem encode_then_decode_completes (fit : Z -> frames -> autoencoder)
  (d : dtype) (f : Wave.wav) (r : Wave.reader) (c : Struct.format) :
  Wave.open_read f = Ok r ->
  Wave.r_sampwidth r = 2 \/ Wave.r_sampwidth r = 4 ->
  width_format (Wave.r_sampwidth r) = Ok c ->
  let n := Z.to_nat (Wave.r_nframes r * Wave.r_nchannels r) in
  let size := Wave.r_nframes r * Wave.r_nchannels r * Wave.r_sampwidth r in
  size <= Z.of_nat (length (Wave.payload f)) ->
  100 <= Wave.r_framerate r ->
  header_fits (Wave.r_nchannels r) (Wave.r_sampwidth r) (Wave.r_framerate r)
    size = true ->
  (forall rate x,
     length (concat (decoder_predict (fit rate x) (encoder_predict (fit rate x) x)))
     = length (concat x)) ->
  exists ins dec out w g,
    encode fit f = Ok (ins, dec) /\
    decode_out d ins dec = Ok out /\
    Forall in_int16 out /\
    decode d ins dec = Ok (w, None) /\
    Wave.w_written w = map (Struct.packed c) (firstn n out) /\
    length (Wave.w_written w) = n /\
    decode_file d ins dec = Ok g /\
    Wave.nchannels g = Wave.nchannels f /\
    Wave.sampwidth g = Wave.sampwidth f /\
    Wave.framerate g = Wave.framerate f /\
    Wave.payload g = concat (map (Struct.packed c) (firstn n out)) /\
    Z.of_nat (length (Wave.payload g)) = size.
Proof.
  intros Hopen Hw Hfmt n size Hwhole Hrate Hfits Hshape.
  assert (Hn3 : Wave.r_sampwidth r <> 3) by lia.
  pose proof (width_format_size _ _ Hfmt Hn3) as Hsz.
  assert (Hcb : c <> Struct.Fb).
  { intros ->. simpl in Hsz. lia. }
  destruct (dataFromWave_ok f r Hopen) as (data & Hread & Hlen);
    [simpl; lia|exact Hwhole|].
  destruct (encode_inputs_spec data (Wave.r_framerate r) Hrate)
    as (inputs & Hin & Hcat).
  pose proof (frame_rate_positive _ Hrate) as Hr1.
  destruct (padded_size (Z.of_nat (length data)) _ Hr1 ltac:(lia))
    as (_ & Hpad & _).
  destruct (opened_header f r Hopen) as (Hc & _ & Hs0 & _).
  destruct (open_read_inv _ _ Hopen) as (Hr & _).
  set (rate := Wave.r_framerate r / 100) in *.
  set (net := fit rate inputs).
  set (outputs := decoder_predict net (encoder_predict net inputs)).
  set (out := map (decode_sample d) (concat outputs)).
  set (ins := {| npz_data := encoder_predict net inputs;
                 npz_params := [Wave.r_nchannels r; Wave.r_nframes r;
                                Wave.r_sampwidth r; Wave.r_framerate r] |}).
  assert (Hlong : (n < length (concat outputs))%nat).
  { unfold outputs, net. rewrite Hshape, Hcat, length_app, length_map,
      repeat_length. fold n in Hlen. lia. }
  assert (Hne : outputs <> []).
  { intros E. rewrite E in Hlong. simpl in Hlong. lia. }
  assert (Hrep : Forall (fun v => Struct.representable c v = true)
                   (firstn n out)).
  { apply Forall_firstn_of, Forall_map, Forall_forall. intros x _.
    now apply norm_fits. }
  destruct (decode_run d ins (decoder_predict net)
              (Wave.r_nchannels r) (Wave.r_nframes r) (Wave.r_sampwidth r)
              (Wave.r_framerate r) c)
    as (Hrun & Hfile & Hsize); try lia.
  - reflexivity.
  - exact Hfmt.
  - rewrite Hsz. exact Hfits.
  - cbn [npz_data ins]. fold outputs. rewrite length_map. exact Hlong.
  - cbn [npz_data ins]. fold outputs out n. exact Hrep.
  - cbn [npz_data ins] in Hrun, Hfile, Hsize. fold outputs out n in Hrun, Hfile, Hsize.
    exists ins, (decoder_predict net), out.
    eexists. eexists.
    split.
    { unfold encode. rewrite Hread. cbn [bind]. rewrite Hin. reflexivity. }
    split; [apply decode_out_spec; exact Hne|].
    split.
    { apply Forall_map, Forall_forall. intros x _. apply norm_range. }
    split; [exact Hrun|].
    cbn [Wave.w_written]. split; [reflexivity|].
    split.
    { rewrite length_map, length_firstn. unfold out. rewrite length_map. lia. }
    split; [exact Hfile|].
    cbn [Wave.nchannels Wave.sampwidth Wave.framerate Wave.payload]
      in Hsize |- *.
    assert (Hfields : Z.to_N (Wave.r_nchannels r) = Wave.nchannels f /\
                      Z.to_N (Wave.r_sampwidth r) = Wave.sampwidth f /\
                      Z.to_N (Wave.r_framerate r) = Wave.framerate f).
    { rewrite Hr. cbn [Wave.r_nchannels Wave.r_sampwidth Wave.r_framerate].
      now rewrite !N2Z.id. }
    destruct Hfields as (F1 & F2 & F3).
    split; [exact F1|]. split; [exact F2|]. split; [exact F3|].
    split; [reflexivity|].
    rewrite Hsize, Hsz. reflexivity.
Qed.

Lemma encode_then_decode_completes_witness :
  exists ins dec w g,
    encode (fun _ _ => mk_autoencoder (fun x => x) (fun x => x))
      (Wave.mk_wav 1 2 8000 [x01; x02; x03; x04]) = Ok (ins, dec) /\
    decode Float32 ins dec = Ok (w, None) /\
    length (Wave.w_written w) = 2%nat /\
    decode_file Float32 ins dec = Ok g /\
    Z.of_nat (length (Wave.payload g)) = 4.
Proof.
  pose (f := Wave.mk_wav 1 2 8000 [x01; x02; x03; x04]).
  pose (r := Wave.mk_reader 1 2 8000 2 2 (Wave.payload f)).
  destruct (encode_then_decode_completes
              (fun _ _ => mk_autoencoder (fun x => x) (fun x => x))
              Float32 f r Struct.Fh)
    as (ins & dec & out & w & g & Henc & _ & _ & Hdec & _ & Hn & Hfile
        & _ & _ & _ & _ & Hsize).
  - reflexivity.
  - left. reflexivity.
  - reflexivity.
  - simpl. lia.
  - simpl. lia.
  - reflexivity.
  - intros rate x. reflexivity.
  - exists ins, dec, w, g. repeat split; assumption.
Defined.

(** ** Further properties: files and paths *)

Import String.StringSyntax.
Delimit Scope string_scope with string.

Lemma put_same (p : String.string) (x : Files.file) (fs : Files.store) :
  Files.put p x fs p = Some x.
Proof. unfold Files.put. now rewrite String.eqb_refl. Qed.

Lemma put_other (p q : String.string) (x : Files.file) (fs : Files.store) :
  q <> p -> Files.put p x fs q = fs q.
Proof.
  intros Hne. unfold Files.put.
  destruct (String.eqb_spec q p) as [E|_]; [contradiction|reflexivity].
Qed.

Lemma string_length_append (a b : String.string) :
  String.length (String.append a b) = (String.length a + String.length b)%nat.
Proof.
  induction a as [|ch a IH]; [reflexivity|]. simpl. now rewrite IH.
Qed.

Lemma append_cancel_l (p a b : String.string) :
  String.append p a = String.append p b -> a = b.
Proof.
  induction p as [|ch p IH]; simpl; intros H; [exact H|].
  injection H as H. now apply IH.
Qed.

Lemma append_cancel_r (a b s : String.string) :
  String.append a s = String.append b s -> a = b.
Proof.
  revert b; induction a as [|ch a IH]; intros [|ch' b] H; simpl in H.
  - reflexivity.
  - apply (f_equal String.length) in H. simpl in H.
    rewrite string_length_append in H. lia.
  - apply (f_equal String.length) in H. simpl in H.
    rewrite string_length_append in H. lia.
  - injection H as -> H. f_equal. now apply IH.
Qed.

Lemma append_longer (p s : String.string) :
  s <> String.EmptyString -> String.append p s <> p.
Proof.
  intros Hs E. apply (f_equal String.length) in E.
  rewrite string_length_append in E.
  destruct s; [contradiction|]. simpl in E. lia.
Qed.

(** The model never lands on the container: the two names [encode] writes
    to are different. *)
Lemma savez_name_not_model (out_file : String.string) :
  Files.savez_name out_file <> String.append out_file ".model"%string.
Proof.
  unfold Files.savez_name.
  destruct (Files.ends_with out_file ".npz"%string).
  - intros E. symmetry in E. revert E. apply append_longer. discriminate.
  - intros E. apply append_cancel_l in E. discriminate.
Qed.

(** X14: the two artifacts are found again under the prefix they were
    saved with.  When [out_file] does not end in [.npz], [encode] leaves the
    container at [out_file + ".npz"] and the model at [out_file + ".model"],
    and [decode] called with the same prefix loads exactly this container
    and this model. *)
Theorem encode_then_decode_same_prefix (fit : Z -> frames -> autoencoder)
  (d : dtype) (in_file out_file wav_out : String.string) (fs : Files.store)
  (f : Wave.wav) (c : npz) (dec : frames -> frames) :
  fs in_file = Some (Files.WavFile f) ->
  encode fit f = Ok (c, dec) ->
  Files.ends_with out_file ".npz"%string = false ->
  exists fs1,
    Files.encode_files fit in_file out_file fs = Files.Done fs1 /\
    fs1 (String.append out_file ".npz"%string) = Some (Files.NpzFile c) /\
    fs1 (String.append out_file ".model"%string) = Some (Files.ModelFile dec) /\
    Files.decode_files d out_file wav_out fs1 =
      Files.decode_loaded d c dec wav_out fs1.
Proof.
  intros Hin Henc Hsuf.
  pose proof (savez_name_not_model out_file) as Hne.
  unfold Files.encode_files. rewrite Hin, Henc.
  unfold Files.savez_name in *. rewrite Hsuf in *.
  eexists. split; [reflexivity|].
  assert (H1 : Files.put (String.append out_file ".model"%string)
                 (Files.ModelFile dec)
                 (Files.put (String.append out_file ".npz"%string)
                    (Files.NpzFile c) fs)
                 (String.append out_file ".npz"%string)
               = Some (Files.NpzFile c)).
  { rewrite put_other by exact Hne. apply put_same. }
  split; [exact H1|]. split; [apply put_same|].
  unfold Files.decode_files. now rewrite put_same, H1.
Qed.

Lemma encode_then_decode_same_prefix_witness :
  exists fs1 fs2 g,
    Files.encode_files (fun _ _ => mk_autoencoder (fun x => x) (fun x => x))
      "in.wav"%string "song"%string
      (Files.put "in.wav"%string
         (Files.WavFile (Wave.mk_wav 1 2 8000 [x01; x02])) (fun _ => None))
      = Files.Done fs1 /\
    Files.decode_files Float32 "song"%string "out"%string fs1 = Files.Done fs2 /\
    fs2 "out.wav"%string = Some (Files.WavFile g).
Proof.
  destruct (encode_then_decode_same_prefix
              (fun _ _ => mk_autoencoder (fun x => x) (fun x => x)) Float32
              "in.wav"%string "song"%string "out"%string
              (Files.put "in.wav"%string
                 (Files.WavFile (Wave.mk_wav 1 2 8000 [x01; x02]))
                 (fun _ => None))
              (Wave.mk_wav 1 2 8000 [x01; x02])
              {| npz_data :=
                   [[0.5078277587890625%float]
                      ++ repeat 0%float 79];
                 npz_params := [1; 1; 2; 8000] |}
              (fun x => x))
    as (fs1 & Henc & _ & _ & Hdec).
  - reflexivity.
  - vm_compute. reflexivity.
  - reflexivity.
  - exists fs1. eexists. eexists. split; [exact Henc|].
    rewrite Hdec. split; [vm_compute; reflexivity|]. apply put_same.
Defined.

(** X15: an output name that already ends in [.npz] breaks the pair.
    [np.savez_compressed] then writes the container to [out_file] itself,
    while [decode] still looks for [in_file + ".npz"]: called with the same
    prefix it sees at that path what the store held before, so it fails
    when nothing was there; and no prefix names both the container and the
    model of this [encode]. *)
Theorem npz_suffix_breaks_pairing (fit : Z -> frames -> autoencoder)
  (d : dtype) (in_file out_file wav_out : String.string) (fs : Files.store)
  (f : Wave.wav) (c : npz) (dec : frames -> frames) :
  fs in_file = Some (Files.WavFile f) ->
  encode fit f = Ok (c, dec) ->
  Files.ends_with out_file ".npz"%string = true ->
  exists fs1,
    Files.encode_files fit in_file out_file fs = Files.Done fs1 /\
    fs1 out_file = Some (Files.NpzFile c) /\
    fs1 (String.append out_file ".model"%string) = Some (Files.ModelFile dec) /\
    fs1 (String.append out_file ".npz"%string)
      = fs (String.append out_file ".npz"%string) /\
    (fs (String.append out_file ".npz"%string) = None ->
     Files.decode_files d out_file wav_out fs1 =
       Files.Failed (Files.Missing (String.append out_file ".npz"%string))) /\
    (forall p,
       String.append p ".model"%string = String.append out_file ".model"%string ->
       String.append p ".npz"%string <> out_file).
Proof.
  intros Hin Henc Hsuf.
  pose proof (savez_name_not_model out_file) as Hne.
  unfold Files.encode_files. rewrite Hin, Henc.
  unfold Files.savez_name in *. rewrite Hsuf in *.
  eexists. split; [reflexivity|].
  split; [rewrite put_other by exact Hne; apply put_same|].
  split; [apply put_same|].
  assert (Hold : Files.put (String.append out_file ".model"%string)
                   (Files.ModelFile dec)
                   (Files.put out_file (Files.NpzFile c) fs)
                   (String.append out_file ".npz"%string)
                 = fs (String.append out_file ".npz"%string)).
  { rewrite !put_other; [reflexivity| |].
    - apply append_longer. discriminate.
    - intros E. apply append_cancel_l in E. discriminate. }
  split; [exact Hold|]. split.
  - intros Hnone. unfold Files.decode_files.
    now rewrite put_same, Hold, Hnone.
  - intros p Hp. apply append_cancel_r in Hp. subst p.
    apply append_longer. discriminate.
Qed.

Lemma npz_suffix_breaks_pairing_witness :
  exists fs1,
    Files.encode_files (fun _ _ => mk_autoencoder (fun x => x) (fun x => x))
      "in.wav"%string "song.npz"%string
      (Files.put "in.wav"%string
         (Files.WavFile (Wave.mk_wav 1 2 8000 [x01; x02])) (fun _ => None))
      = Files.Done fs1 /\
    Files.decode_files Float32 "song.npz"%string "out"%string fs1
      = Files.Failed (Files.Missing "song.npz.npz"%string).
Proof.
  destruct (npz_suffix_breaks_pairing
              (fun _ _ => mk_autoencoder (fun x => x) (fun x => x)) Float32
              "in.wav"%string "song.npz"%string "out"%string
              (Files.put "in.wav"%string
                 (Files.WavFile (Wave.mk_wav 1 2 8000 [x01; x02]))
                 (fun _ => None))
              (Wave.mk_wav 1 2 8000 [x01; x02])
              {| npz_data :=
                   [[0.5078277587890625%float]
                      ++ repeat 0%float 79];
                 npz_params := [1; 1; 2; 8000] |}
              (fun x => x))
    as (fs1 & Henc & _ & _ & _ & Hdec & _).
  - reflexivity.
  - vm_compute. reflexivity.
  - reflexivity.
  - exists fs1. split; [exact Henc|]. apply Hdec. reflexivity.
Defined.

(** X16: a run changes nothing but its outputs.  After [encode] every path
    other than the container's and the model's holds what it held before,
    and after [decode] every path other than [out_file + ".wav"] does, the
    path [out_file] itself included; the output of [decode] is a PCM file. *)
Theorem runs_touch_only_their_outputs (fit : Z -> frames -> autoencoder)
  (d : dtype) (in_file out_file : String.string) (fs : Files.store) :
  (forall fs1,
     Files.encode_files fit in_file out_file fs = Files.Done fs1 ->
     forall q,
       q <> Files.savez_name out_file ->
       q <> String.append out_file ".model"%string ->
       fs1 q = fs q) /\
  (forall fs2,
     Files.decode_files d in_file out_file fs = Files.Done fs2 ->
     (forall q, q <> String.append out_file ".wav"%string -> fs2 q = fs q) /\
     fs2 out_file = fs out_file /\
     exists g, fs2 (String.append out_file ".wav"%string)
               = Some (Files.WavFile g)).
Proof.
  split.
  - intros fs1 Hrun q Hq1 Hq2. unfold Files.encode_files in Hrun.
    destruct (fs in_file) as [[w| |]|]; try discriminate.
    destruct (encode fit w) as [[c dec]|e]; [|discriminate].
    injection Hrun as <-. now rewrite !put_other.
  - intros fs2 Hrun. unfold Files.decode_files in Hrun.
    destruct (fs (String.append in_file ".model"%string)) as [[| |dec]|];
      try discriminate.
    destruct (fs (String.append in_file ".npz"%string)) as [[|c|]|];
      try discriminate.
    unfold Files.decode_loaded in Hrun.
    destruct (decode_file d c dec) as [g|e]; [|discriminate].
    injection Hrun as <-.
    split; [intros q Hq; now apply put_other|].
    split.
    + apply put_other. intros E. symmetry in E. revert E.
      apply append_longer. discriminate.
    + exists g. apply put_same.
Qed.

Lemma runs_touch_only_their_outputs_witness :
  exists fs1,
    Files.encode_files (fun _ _ => mk_autoencoder (fun x => x) (fun x => x))
      "in.wav"%string "song"%string
      (Files.put "in.wav"%string
         (Files.WavFile (Wave.mk_wav 1 2 8000 [x01; x02])) (fun _ => None))
      = Files.Done fs1 /\
    fs1 "in.wav"%string = Some (Files.WavFile (Wave.mk_wav 1 2 8000 [x01; x02])).
Proof.
  destruct (runs_touch_only_their_outputs
              (fun _ _ => mk_autoencoder (fun x => x) (fun x => x)) Float32
              "in.wav"%string "song"%string
              (Files.put "in.wav"%string
                 (Files.WavFile (Wave.mk_wav 1 2 8000 [x01; x02]))
                 (fun _ => None))) as [Henc _].
  eexists. split; [reflexivity|].
  rewrite (Henc _ eq_refl); [reflexivity|discriminate|discriminate].
Defined.

(** With the network that hands its input back, the file [decode] leaves
    for a file of width 1 or 2 that holds the frames it announces has the
    header values of the file [encode] read and the bytes of its frames. *)
Lemma identity_pipeline_file (d : dtype) (f : Wave.wav) (r : Wave.reader)
  (c : Struct.format) :
  Wave.open_read f = Ok r ->
  Wave.r_sampwidth r = 1 \/ Wave.r_sampwidth r = 2 ->
  width_format (Wave.r_sampwidth r) = Ok c ->
  100 <= Wave.r_framerate r ->
  let size := Wave.r_nframes r * Wave.r_nchannels r * Wave.r_sampwidth r in
  size <= Z.of_nat (length (Wave.payload f)) ->
  header_fits (Wave.r_nchannels r) (Wave.r_sampwidth r) (Wave.r_framerate r)
    size = true ->
  exists ins dec,
    encode (fun _ _ => mk_autoencoder (fun x => x) (fun x => x)) f
      = Ok (ins, dec) /\
    decode_file d ins dec =
      Ok {| Wave.nchannels := Wave.nchannels f;
            Wave.sampwidth := Wave.sampwidth f;
            Wave.framerate := Wave.framerate f;
            Wave.chunksize := Z.to_N size;
            Wave.payload := firstn (Z.to_nat size) (Wave.payload f) |}.
Proof.
  intros Hopen Hwidth Hfmt Hrate size Hwhole Hfits.
  assert (Hn3 : Wave.r_sampwidth r <> 3) by lia.
  assert (Hw4 : Wave.r_sampwidth r <= 4) by lia.
  destruct (reread_rewrite_file f r c Hopen Hn3 Hw4 Hfmt
              ltac:(lia) Hwhole Hfits)
    as (data & Hread & Hrep & Hlen & Hrun & Hfile).
  assert (H16 : Forall in_int16 data).
  { eapply Forall_impl; [|exact Hrep]. intros v Hv.
    apply andb_prop in Hv as [Hlo Hhi].
    apply Z.leb_le in Hlo. apply Z.ltb_lt in Hhi. unfold in_int16.
    destruct Hwidth as [E|E]; rewrite E in Hfmt; injection Hfmt as <-.
    - change (2 ^ (Struct.bits Struct.Fb - 1)) with 128 in *. lia.
    - change (2 ^ (Struct.bits Struct.Fh - 1)) with 32768 in *. lia. }
  destruct (encode_inputs_spec data (Wave.r_framerate r) Hrate)
    as (inputs & Hin & Hcat).
  pose proof (frame_rate_positive _ Hrate) as Hr1.
  destruct (padded_size (Z.of_nat (length data)) _ Hr1 ltac:(lia))
    as (_ & Hpad & _).
  destruct (opened_header f r Hopen) as (Hc & Hw & Hs0 & _).
  assert (Hfits0 : header_fits (Wave.r_nchannels r) (Wave.r_sampwidth r)
                     (Wave.r_framerate r) 0 = true).
  { rewrite header_fits_datasize in Hfits. now apply andb_prop in Hfits. }
  assert (H64 : int64_min <= Wave.r_nframes r * Wave.r_nchannels r
                <= int64_max).
  { apply (count_within_int64 (Wave.r_nchannels r) (Wave.r_sampwidth r)
             (Wave.r_framerate r) (Wave.r_nframes r) (Wave.r_sampwidth r));
      try lia. exact Hfits. }
  set (n := Z.to_nat (Wave.r_nframes r * Wave.r_nchannels r)) in *.
  set (out := map (decode_sample d) (concat inputs)).
  assert (Hfirst : firstn n out = data).
  { unfold out. rewrite Hcat, map_app, map_map, <- Hlen.
    rewrite <- (length_map (fun s => decode_sample d (normalize s)) data).
    rewrite firstn_app, Nat.sub_diag, firstn_O, app_nil_r, firstn_all.
    rewrite <- (map_id data) at 2.
    apply map_ext_in. intros s Hs. unfold decode_sample.
    pose proof (proj1 (Forall_forall _ _) H16 s Hs) as Hs16.
    now rewrite roundtrip_exact, norm_id. }
  assert (Hne : inputs <> []).
  { intros E. rewrite E in Hcat. simpl in Hcat.
    apply (f_equal (@length float)) in Hcat.
    rewrite length_app, repeat_length in Hcat. simpl in Hcat. lia. }
  assert (Hwrite : dataToWave out (Wave.r_nchannels r) (Wave.r_nframes r)
                     (Wave.r_sampwidth r) (Wave.r_framerate r)
                   = dataToWave data (Wave.r_nchannels r) (Wave.r_nframes r)
                       (Wave.r_sampwidth r) (Wave.r_framerate r)).
  { rewrite Hrun.
    rewrite (dataToWave_ok _ _ _ _ _ c); fold n; try assumption; try lia.
    - now rewrite Hfirst.
    - unfold out. rewrite length_map, Hcat, length_app, length_map. lia.
    - now rewrite Hfirst. }
  eexists. eexists. split.
  { unfold encode. rewrite Hread. cbn [bind]. rewrite Hin. reflexivity. }
  unfold decode_file, decode.
  cbn [decode_params npz_params index nth_error bind].
  rewrite decode_out_spec by (cbn; exact Hne).
  cbn [bind npz_data decoder_predict encoder_predict]. fold out.
  rewrite dataToWave_int64 by exact H64.
  rewrite Hwrite. exact Hfile.
Qed.

(** X17: the whole program around a network that hands its input back.
    For a file of width 1 or 2 that holds the frames it announces, at a rate
    of at least 100 and with a header the writer can store, [encode] to a
    prefix that does not end in [.npz] followed by [decode] from that prefix
    leaves at [out_file + ".wav"] a file with the channel count, sample
    width and frame rate of the input, whose data chunk is the bytes of the
    frames of the input: the whole data chunk of the input when that chunk
    is a whole number of frames present in the file. *)
Theorem identity_network_reproduces_file (d : dtype)
  (in_file prefix out_file : String.string) (fs : Files.store)
  (f : Wave.wav) (r : Wave.reader) (c : Struct.format) :
  fs in_file = Some (Files.WavFile f) ->
  Wave.open_read f = Ok r ->
  Wave.r_sampwidth r = 1 \/ Wave.r_sampwidth r = 2 ->
  width_format (Wave.r_sampwidth r) = Ok c ->
  100 <= Wave.r_framerate r ->
  let size := Wave.r_nframes r * Wave.r_nchannels r * Wave.r_sampwidth r in
  size <= Z.of_nat (length (Wave.payload f)) ->
  header_fits (Wave.r_nchannels r) (Wave.r_sampwidth r) (Wave.r_framerate r)
    size = true ->
  Files.ends_with prefix ".npz"%string = false ->
  exists fs1 fs2 g,
    Files.encode_files (fun _ _ => mk_autoencoder (fun x => x) (fun x => x))
      in_file prefix fs = Files.Done fs1 /\
    Files.decode_files d prefix out_file fs1 = Files.Done fs2 /\
    fs2 (String.append out_file ".wav"%string) = Some (Files.WavFile g) /\
    Wave.nchannels g = Wave.nchannels f /\
    Wave.sampwidth g = Wave.sampwidth f /\
    Wave.framerate g = Wave.framerate f /\
    Wave.chunksize g = Z.to_N size /\
    Wave.payload g = firstn (Z.to_nat size) (Wave.payload f) /\
    (Wave.chunksize f = N.of_nat (length (Wave.payload f)) ->
     Z.of_N (Wave.chunksize f) mod Wave.r_framesize r = 0 ->
     Wave.chunksize g = Wave.chunksize f /\
     Wave.payload g = Wave.payload f).
Proof.
  intros Hin Hopen Hwidth Hfmt Hrate size Hwhole Hfits Hsuf.
  destruct (identity_pipeline_file d f r c Hopen Hwidth Hfmt Hrate Hwhole Hfits)
    as (ins & dec & Henc & Hdec).
  pose proof (savez_name_not_model prefix) as Hne.
  unfold Files.savez_name in Hne. rewrite Hsuf in Hne.
  unfold Files.encode_files. rewrite Hin, Henc.
  unfold Files.savez_name. rewrite Hsuf.
  eexists. eexists. eexists. split; [reflexivity|].
  unfold Files.decode_files.
  rewrite put_same, (put_other _ _ _ _ Hne), put_same.
  unfold Files.decode_loaded. rewrite Hdec.
  split; [reflexivity|]. split; [apply put_same|].
  cbn [Wave.nchannels Wave.sampwidth Wave.framerate Wave.chunksize
         Wave.payload].
  do 5 (split; [reflexivity|]).
  intros Hdecl Hmod.
  destruct (opened_header f r Hopen) as (Hc & Hw & _ & Hfs & _).
  destruct (open_read_inv _ _ Hopen) as (Hr & _).
  rewrite Hfs in Hmod. apply Z.div_exact in Hmod; [|nia].
  assert (Hsize : size = Z.of_N (Wave.chunksize f)).
  { unfold size. rewrite Hr in Hmod |- *.
    cbn [Wave.r_nframes Wave.r_nchannels Wave.r_sampwidth] in Hmod |- *.
    nia. }
  unfold size in Hsize. rewrite Hsize, N2Z.id. split; [reflexivity|].
  rewrite Hdecl, nat_N_Z, Nat2Z.id. apply firstn_all.
Qed.

Lemma identity_network_reproduces_file_witness :
  exists fs1 fs2 g,
    Files.encode_files (fun _ _ => mk_autoencoder (fun x => x) (fun x => x))
      "in.wav"%string "song"%string
      (Files.put "in.wav"%string
         (Files.WavFile (Wave.mk_wav 2 2 8000 [x01; x02; x03; xff])) (fun _ => None))
      = Files.Done fs1 /\
    Files.decode_files Float32 "song"%string "out"%string fs1 = Files.Done fs2 /\
    fs2 "out.wav"%string = Some (Files.WavFile g) /\
    Wave.payload g = [x01; x02; x03; xff].
Proof.
  destruct (identity_network_reproduces_file Float32
              "in.wav"%string "song"%string "out"%string
              (Files.put "in.wav"%string
                 (Files.WavFile (Wave.mk_wav 2 2 8000 [x01; x02; x03; xff]))
                 (fun _ => None))
              (Wave.mk_wav 2 2 8000 [x01; x02; x03; xff])
              (Wave.mk_reader 2 2 8000 1 4 [x01; x02; x03; xff]) Struct.Fh)
    as (fs1 & fs2 & g & Henc & Hdec & Hout & _ & _ & _ & _ & _ & Hsame).
  - reflexivity.
  - reflexivity.
  - right. reflexivity.
  - reflexivity.
  - simpl. lia.
  - simpl. lia.
  - reflexivity.
  - reflexivity.
  - exists fs1, fs2, g. split; [exact Henc|]. split; [exact Hdec|].
    split; [exact Hout|]. apply Hsame; reflexivity.
Defined.

